(** * The request pipeline of the chat client: [ApiAuthService] and [ApiChatService]

    A shallow embedding of the two service classes and of what they touch:
    the shared token store, the [fetch] calls they issue and the console.
    An [async] method becomes a function in a state-and-exception monad
    over [World]; [await] is the monad's bind, [throw] and [try]/[catch]
    are its exception operations.

    One method call is followed from start to end, with nothing else
    scheduled in between: the statements are about a single call. *)

From Stdlib Require Import Ascii String ZArith List.
From stdpp Require Import base strings gmap pretty.

#[local] Set Warnings "-register-all".
#[local] Open Scope string_scope.

(** ** JavaScript values and errors *)

Module JS.

(** A JavaScript value as the services see one: a request object handed in
    by the caller, or a parsed payload. An object is the list of its own
    properties in enumeration order. The services pass numbers on and never
    compute with them; the integers stand for them. *)
Inductive Value : Type :=
  | Undefined
  | Null
  | Bool (b : bool)
  | Number (n : Z)
  | Str (s : string)
  | Array (items : list Value)
  | Object (props : list (string * Value)).

(** An object: its properties. *)
Definition Obj : Type := list (string * Value).

(** [o.k]: the property's value, [undefined] when [o] has no such property. *)
Fixpoint get (o : Obj) (k : string) : Value :=
  match o with
  | [] => Undefined
  | (k', v) :: rest => if String.eqb k' k then v else get rest k
  end.

(** [o.k = v] on a copy of [o]: an existing property keeps its place. *)
Fixpoint set (o : Obj) (k : string) (v : Value) : Obj :=
  match o with
  | [] => [(k, v)]
  | (k', v') :: rest =>
      if String.eqb k' k then (k', v) :: rest else (k', v') :: set rest k v
  end.

(** A thrown value: an error object with its [name] and [message]. *)
Record Error : Type := mkError { name : string; message : string }.

(** [new Error(msg)]. *)
Definition new_Error (msg : string) : Error := mkError "Error" msg.

(** How an evaluation ends: with a value, or with a thrown error. For a
    promise: fulfilled or rejected. *)
Inductive Completion (A : Type) : Type :=
  | Return (a : A)
  | Throw (e : Error).
Arguments Return {A} a.
Arguments Throw {A} e.

(** Truthiness of a string: only the empty string is falsy. *)
Definition truthy (s : string) : bool := negb (String.eqb s "").

End JS.

(** ** [JSON.stringify] on [JS.Value] *)

Module JSON.

Definition hex_digit (n : N) : string :=
  match n with
  | 10%N => "a" | 11%N => "b" | 12%N => "c"
  | 13%N => "d" | 14%N => "e" | 15%N => "f"
  | _ => pretty n
  end.

(** One character inside a JSON string literal. *)
Definition quote_char (c : ascii) : string :=
  let n := N_of_ascii c in
  if N.eqb n 8 then "\b"
  else if N.eqb n 9 then "\t"
  else if N.eqb n 10 then "\n"
  else if N.eqb n 12 then "\f"
  else if N.eqb n 13 then "\r"
  else if N.eqb n 34 then "\" ++ String c ""
  else if N.eqb n 92 then "\\"
  else if N.ltb n 32 then "\u00" ++ hex_digit (n / 16) ++ hex_digit (n mod 16)
  else String c "".

Fixpoint quote_chars (s : string) : string :=
  match s with
  | EmptyString => ""
  | String c rest => quote_char c ++ quote_chars rest
  end.

Definition quote (s : string) : string :=
  String (ascii_of_N 34) (quote_chars s ++ String (ascii_of_N 34) "").

Definition join (l : list string) : string :=
  match l with
  | [] => ""
  | x :: rest => fold_left (fun acc y => acc ++ "," ++ y) rest x
  end.

(** The text of a value, [None] where [JSON.stringify] gives [undefined]:
    a property that is [undefined] is left out of its object, an item that
    is [undefined] is written [null]. An integer is written in decimal, as
    JavaScript writes the integers it holds exactly, those up to 2^53 in
    size; the text of a number outside that range is not modelled. *)
Fixpoint serialize (v : JS.Value) : option string :=
  match v with
  | JS.Undefined => None
  | JS.Null => Some "null"
  | JS.Bool true => Some "true"
  | JS.Bool false => Some "false"
  | JS.Number n => Some (pretty n)
  | JS.Str s => Some (quote s)
  | JS.Array items =>
      let texts :=
        (fix go (l : list JS.Value) : list string :=
           match l with
           | [] => []
           | x :: rest => default "null" (serialize x) :: go rest
           end) items in
      Some ("[" ++ join texts ++ "]")
  | JS.Object props =>
      let members :=
        (fix go (l : list (string * JS.Value)) : list string :=
           match l with
           | [] => []
           | (k, x) :: rest =>
               match serialize x with
               | Some t => (quote k ++ ":" ++ t) :: go rest
               | None => go rest
               end
           end) props in
      Some ("{" ++ join members ++ "}")
  end.

(** [JSON.stringify(o)] for an object [o]: always a string. *)
Definition stringify (o : JS.Obj) : string :=
  default "{}" (serialize (JS.Object o)).

End JSON.

(** ** The world a call runs in *)

(** [RequestInit], the fields the services read or write. [headers] is
    the plain-object form of [HeadersInit], the one whose entries the spread
    in [makeRequest] copies; every operation of the two classes hands
    [makeRequest] options without headers. *)
Record RequestInit : Type := mkRequestInit {
  method : option string;
  headers : option (gmap string string);
  body : option string;
  credentials : option string;
}.

(** [options: RequestInit = {}]. *)
Definition empty_init : RequestInit := mkRequestInit None None None None.

(** A [Response], read the way [makeRequest] reads it: the [ok] flag, the
    numeric [status], and what [text()] and [json()] settle to. [T] is the
    type the call site gives the parsed body; nothing checks it. *)
Record Response (T : Type) : Type := mkResponse {
  ok : bool;
  status : N;
  text : JS.Completion string;
  json : JS.Completion T;
}.
Arguments mkResponse {T} _ _ _ _.
Arguments ok {T} _.
Arguments status {T} _.
Arguments text {T} _.
Arguments json {T} _.

(** The global [fetch], as the network answers one call: a response, or a
    rejection (DNS, connection, abort). *)
Definition Fetch (T : Type) : Type :=
  string -> RequestInit -> JS.Completion (Response T).

(** One call to [fetch]. *)
Record Request : Type := mkRequest { url : string; init : RequestInit }.

(** An argument of [console.log]. *)
Inductive LogArg : Type :=
  | LogStr (s : string)
  | LogInit (o : RequestInit).

Record World : Type := mkWorld {
  stored_token : option string; (* what the TokenManager singleton holds *)
  requests : list Request;      (* every call to fetch so far, oldest first *)
  console : list (list LogArg); (* every console.log so far, oldest first *)
}.

(** ** Async functions *)

Definition Async (A : Type) : Type := World -> JS.Completion A * World.

Definition ret {A} (a : A) : Async A := fun w => (JS.Return a, w).

Definition throw {A} (e : JS.Error) : Async A := fun w => (JS.Throw e, w).

Definition bind {A B} (m : Async A) (k : A -> Async B) : Async B :=
  fun w =>
    match m w with
    | (JS.Return a, w') => k a w'
    | (JS.Throw e, w') => (JS.Throw e, w')
    end.

(** [try { m } catch (err) { h err }]. *)
Definition try_catch {A} (m : Async A) (h : JS.Error -> Async A) : Async A :=
  fun w =>
    match m w with
    | (JS.Return a, w') => (JS.Return a, w')
    | (JS.Throw e, w') => h e w'
    end.

(** [await p] for a promise that is already settled. *)
Definition await {A} (p : JS.Completion A) : Async A := fun w => (p, w).

(** [x ← m; k] reads [const x = await m; k]. *)
#[global] Instance async_ret : MRet Async := @ret.
#[global] Instance async_bind : MBind Async := fun A B k m => bind m k.

(** [await fetch(url, init)]: the call is recorded, the network answers. *)
Definition call_fetch {T} (fetch : Fetch T) (u : string) (i : RequestInit)
  : Async (Response T) :=
  fun w =>
    (fetch u i,
     mkWorld (stored_token w) (requests w ++ [mkRequest u i]) (console w)).

(** [console.log(args)]. *)
Definition console_log (args : list LogArg) : Async unit :=
  fun w => (JS.Return tt, mkWorld (stored_token w) (requests w) (console w ++ [args])).

(** What a call leaves behind. *)
Definition result_of {A} (m : Async A) (w : World) : JS.Completion A := fst (m w).
Definition world_after {A} (m : Async A) (w : World) : World := snd (m w).

(** The calls to [fetch] made since [w]. *)
Definition issued (w w' : World) : list Request :=
  drop (length (requests w)) (requests w').

(** ** The token store *)

Module TokenManager.

(** The class [TokenManager] of [@/services/TokenManager] is not among the
    sources. The spec gives it as one process-wide instance holding a
    credential or nothing, with [getCredential], [setCredential] and
    [clearCredential]; the services call them [getToken], [setToken] and
    [clearToken]. [TokenManager.getInstance()] is the [World]'s store. *)

(** Modelled from the spec: [getToken()], the credential held, or [null]. *)
Definition getToken : Async (option string) :=
  fun w => (JS.Return (stored_token w), w).

(** Modelled from the spec: [setToken(t)], after which [t] is held. *)
Definition setToken (t : string) : Async unit :=
  fun w => (JS.Return tt, mkWorld (Some t) (requests w) (console w)).

(** Modelled from the spec: [clearToken()], after which nothing is held. *)
Definition clearToken : Async unit :=
  fun w => (JS.Return tt, mkWorld None (requests w) (console w)).

End TokenManager.

(** ** [ApiAuthService] *)

Module ApiAuthService.

(** Modelled from the spec: the type [AuthServiceConfig] of [@/types],
    which is not among the sources: base URL, timeout and retry count. The
    constructor provides for a base URL that is missing. *)
Record AuthServiceConfig : Type := mkConfig {
  config_baseUrl : option string;
  config_timeout : Z;
  config_retryAttempts : Z;
}.

(** Modelled from the spec: the type [User] of [@/types], a payload whose
    shape nothing checks. *)
Definition User : Type := JS.Value.

(** Modelled from the spec: the type [RegisterRequest] of [@/types], the
    object the caller hands in. *)
Definition RegisterRequest : Type := JS.Obj.

(** The instance: [tokenManager] is the singleton, kept in the [World]. *)
Record t : Type := mkService { baseUrl : string }.

(** [config.baseUrl || 'http://localhost:3000']. *)
Definition constructor (config : AuthServiceConfig) : t :=
  mkService
    match config_baseUrl config with
    | Some b => if JS.truthy b then b else "http://localhost:3000"
    | None => "http://localhost:3000"
    end.

(** [{ user: User; token: string }]. *)
Record AuthResponse : Type := mkAuthResponse { user : User; token : string }.

(** [{ message: string }]. *)
Record LogoutResponse : Type := mkLogoutResponse { message : string }.

Definition makeRequest {T} (fetch : Fetch T) (this : t)
    (endpoint : string) (options : RequestInit) : Async T :=
  let url := baseUrl this ++ endpoint in
  let headers : gmap string string :=
    default ∅ (headers options) ∪ {[ "Content-Type" := "application/json" ]} in
  let fetchOptions :=
    mkRequestInit (method options) (Some headers) (body options) (Some "include") in
  console_log [LogStr "fetch options"];;
  console_log [LogStr "fetchOptions:"; LogInit fetchOptions];;
  response ← call_fetch fetch url fetchOptions;
  if negb (ok response) then
    text ← await (text response);
    throw (JS.new_Error
             ("Request failed with status " ++ pretty (status response) ++ ": " ++ text))
  else
    data ← await (json response);
    mret data.

Definition login (fetch : Fetch AuthResponse) (this : t)
    (username password : string) : Async User :=
  let endpoint := "/auth/login" in
  let options :=
    mkRequestInit (Some "POST") None
      (Some (JSON.stringify [("username", JS.Str username);
                             ("password", JS.Str password)]))
      None in
  response ← makeRequest fetch this endpoint options;
  TokenManager.setToken (token response);;
  mret (user response).

Definition register (fetch : Fetch AuthResponse) (this : t)
    (userData : RegisterRequest) : Async User :=
  let endpoint := "/auth/register" in
  let options :=
    mkRequestInit (Some "POST") None
      (Some (JSON.stringify [("username", JS.get userData "username");
                             ("password", JS.get userData "password")]))
      None in
  response ← makeRequest fetch this endpoint options;
  TokenManager.setToken (token response);;
  mret (user response).

Definition logout (fetch : Fetch LogoutResponse) (this : t) : Async unit :=
  let endpoint := "/auth/logout" in
  let options := mkRequestInit (Some "POST") None None None in
  try_catch
    (makeRequest fetch this endpoint options;; mret tt)
    (fun err => TokenManager.clearToken).

Definition refreshToken (fetch : Fetch AuthResponse) (this : t) : Async User :=
  let endpoint := "/auth/refresh" in
  let options := mkRequestInit (Some "POST") None None None in
  response ← makeRequest fetch this endpoint options;
  TokenManager.setToken (token response);;
  mret (user response).

(** [User | null] is [option User]. The [return null] after the [try]
    statement is reached from the [catch] block only. *)
Definition getCurrentUser (fetch : Fetch User) (this : t) : Async (option User) :=
  let endpoint := "/auth/me" in
  let options := mkRequestInit (Some "GET") None None None in
  try_catch
    (response ← makeRequest fetch this endpoint options;
     mret (Some response))
    (fun err => TokenManager.clearToken;; mret None).

End ApiAuthService.

(** ** [ApiChatService] *)

Module ApiChatService.

Record ApiChatServiceConfig : Type := mkConfig {
  config_baseUrl : string;
  config_timeout : Z;
  config_retryAttempts : Z;
}.

(** The payload and request types come from [@/types], which is not among
    the sources. A payload is JSON whose shape nothing checks; a request
    object is whatever object the caller hands in. *)

(** Modelled from the spec: the payload type [Conversation]. *)
Definition Conversation : Type := JS.Value.
(** Modelled from the spec: the payload type [Message]. *)
Definition Message : Type := JS.Value.
(** Modelled from the spec: the payload type [ExpertProfile]. *)
Definition ExpertProfile : Type := JS.Value.
(** Modelled from the spec: the payload type [ExpertQueue]. *)
Definition ExpertQueue : Type := JS.Value.
(** Modelled from the spec: the payload type [ExpertAssignment]. *)
Definition ExpertAssignment : Type := JS.Value.
(** Modelled from the spec: the request type [CreateConversationRequest]. *)
Definition CreateConversationRequest : Type := JS.Obj.
(** Modelled from the spec: the request type [UpdateConversationRequest]. *)
Definition UpdateConversationRequest : Type := JS.Obj.
(** Modelled from the spec: the request type [SendMessageRequest]. *)
Definition SendMessageRequest : Type := JS.Obj.
(** Modelled from the spec: the request type [UpdateExpertProfileRequest]. *)
Definition UpdateExpertProfileRequest : Type := JS.Obj.

Record t : Type := mkService { baseUrl : string }.

Definition constructor (config : ApiChatServiceConfig) : t :=
  mkService (config_baseUrl config).

Definition makeRequest {T} (fetch : Fetch T) (this : t)
    (endpoint : string) (options : RequestInit) : Async T :=
  let url := baseUrl this ++ endpoint in
  token ← TokenManager.getToken;
  let headers : gmap string string :=
    default ∅ (headers options) ∪ {[ "Content-Type" := "application/json" ]} in
  let headers :=
    match token with
    | Some token =>
        if JS.truthy token
        then <[ "Authorization" := "Bearer " ++ token ]> headers
        else headers
    | None => headers
    end in
  let fetchOptions :=
    mkRequestInit (method options) (Some headers) (body options) (Some "include") in
  response ← call_fetch fetch url fetchOptions;
  if negb (ok response) then
    text ← await (text response);
    throw (JS.new_Error
             ("Request failed with status " ++ pretty (status response) ++ ": " ++ text))
  else
    data ← await (json response);
    mret data.

Definition getConversations (fetch : Fetch (list Conversation)) (this : t)
  : Async (list Conversation) :=
  let endpoint := "/conversations" in
  let options := mkRequestInit (Some "GET") None None None in
  response ← makeRequest fetch this endpoint options;
  mret response.

Definition getConversation (fetch : Fetch Conversation) (this : t)
    (_id : string) : Async Conversation :=
  let endpoint := "/conversations/" ++ _id in
  let options := mkRequestInit (Some "GET") None None None in
  response ← makeRequest fetch this endpoint options;
  mret response.

Definition createConversation (fetch : Fetch Conversation) (this : t)
    (request : CreateConversationRequest) : Async Conversation :=
  let endpoint := "/conversations" in
  let options :=
    mkRequestInit (Some "POST") None
      (Some (JSON.stringify [("title", JS.get request "title")]))
      None in
  response ← makeRequest fetch this endpoint options;
  mret response.

(** [fetch] is in scope of every method; the three placeholders do not
    call it. *)
Definition updateConversation (fetch : Fetch Conversation) (this : t)
    (id : string) (request : UpdateConversationRequest) : Async Conversation :=
  throw (JS.new_Error "updateConversation method not implemented").

Definition deleteConversation (fetch : Fetch unit) (this : t)
    (id : string) : Async unit :=
  throw (JS.new_Error "deleteConversation method not implemented").

Definition getMessages (fetch : Fetch (list Message)) (this : t)
    (conversationId : string) : Async (list Message) :=
  let endpoint := "/conversations/" ++ conversationId ++ "/messages" in
  let options := mkRequestInit (Some "GET") None None None in
  response ← makeRequest fetch this endpoint options;
  mret response.

Definition sendMessage (fetch : Fetch Message) (this : t)
    (request : SendMessageRequest) : Async Message :=
  let endpoint := "/messages" in
  let options :=
    mkRequestInit (Some "POST") None
      (Some (JSON.stringify [("conversationId", JS.get request "conversationId");
                             ("content", JS.get request "content")]))
      None in
  response ← makeRequest fetch this endpoint options;
  mret response.

Definition markMessageAsRead (fetch : Fetch unit) (this : t)
    (messageId : string) : Async unit :=
  throw (JS.new_Error "markMessageAsRead method not implemented").

Definition getExpertQueue (fetch : Fetch ExpertQueue) (this : t)
  : Async ExpertQueue :=
  let endpoint := "/expert/queue" in
  let options := mkRequestInit (Some "GET") None None None in
  response ← makeRequest fetch this endpoint options;
  mret response.

Definition claimConversation (fetch : Fetch unit) (this : t)
    (conversationId : string) : Async unit :=
  let endpoint := "/expert/conversations/" ++ conversationId ++ "/claim" in
  let options := mkRequestInit (Some "POST") None None None in
  response ← makeRequest fetch this endpoint options;
  mret response.

Definition unclaimConversation (fetch : Fetch unit) (this : t)
    (conversationId : string) : Async unit :=
  let endpoint := "/expert/conversations/" ++ conversationId ++ "/unclaim" in
  let options := mkRequestInit (Some "POST") None None None in
  response ← makeRequest fetch this endpoint options;
  mret response.

Definition getExpertProfile (fetch : Fetch ExpertProfile) (this : t)
  : Async ExpertProfile :=
  let endpoint := "/expert/profile" in
  let options := mkRequestInit (Some "GET") None None None in
  response ← makeRequest fetch this endpoint options;
  mret response.

Definition updateExpertProfile (fetch : Fetch ExpertProfile) (this : t)
    (request : UpdateExpertProfileRequest) : Async ExpertProfile :=
  let endpoint := "/expert/profile" in
  let options :=
    mkRequestInit (Some "PUT") None
      (Some (JSON.stringify [("bio", JS.get request "bio");
                             ("knowledgeBaseLinks", JS.get request "knowledgeBaseLinks")]))
      None in
  response ← makeRequest fetch this endpoint options;
  mret response.

Definition getExpertAssignmentHistory (fetch : Fetch (list ExpertAssignment))
    (this : t) : Async (list ExpertAssignment) :=
  let endpoint := "/expert/assignments/history" in
  let options := mkRequestInit (Some "GET") None None None in
  response ← makeRequest fetch this endpoint options;
  mret response.

End ApiChatService.

(** ** The [ChatService] interface *)

Module ChatService.

Import ApiChatService.

(** The operations of the interface [ApiChatService] implements. *)
Inductive Method : Type :=
  | GetConversations
  | GetConversation
  | CreateConversation
  | UpdateConversation
  | DeleteConversation
  | GetMessages
  | SendMessage
  | MarkMessageAsRead
  | GetExpertQueue
  | ClaimConversation
  | UnclaimConversation
  | GetExpertProfile
  | UpdateExpertProfile
  | GetExpertAssignmentHistory.

#[global] Instance Method_eq_dec : EqDecision Method.
Proof. solve_decision. Defined.

(** What an operation takes. *)
Definition Args (m : Method) : Type :=
  match m with
  | GetConversations | GetExpertQueue | GetExpertProfile
  | GetExpertAssignmentHistory => unit
  | GetConversation | DeleteConversation | GetMessages | MarkMessageAsRead
  | ClaimConversation | UnclaimConversation => string
  | CreateConversation | SendMessage | UpdateExpertProfile => JS.Obj
  | UpdateConversation => (string * JS.Obj)%type
  end.

(** What its promise resolves to. *)
Definition Result (m : Method) : Type :=
  match m with
  | GetConversations | GetMessages | GetExpertAssignmentHistory => list JS.Value
  | GetConversation | CreateConversation | UpdateConversation | SendMessage
  | GetExpertQueue | GetExpertProfile | UpdateExpertProfile => JS.Value
  | DeleteConversation | MarkMessageAsRead | ClaimConversation
  | UnclaimConversation => unit
  end.

(** [this.m(args)]. *)
Definition invoke (this : t) (m : Method)
  : Fetch (Result m) -> Args m -> Async (Result m) :=
  match m with
  | GetConversations => fun fetch _ => getConversations fetch this
  | GetConversation => fun fetch id => getConversation fetch this id
  | CreateConversation => fun fetch request => createConversation fetch this request
  | UpdateConversation => fun fetch a => updateConversation fetch this (fst a) (snd a)
  | DeleteConversation => fun fetch id => deleteConversation fetch this id
  | GetMessages => fun fetch id => getMessages fetch this id
  | SendMessage => fun fetch request => sendMessage fetch this request
  | MarkMessageAsRead => fun fetch id => markMessageAsRead fetch this id
  | GetExpertQueue => fun fetch _ => getExpertQueue fetch this
  | ClaimConversation => fun fetch id => claimConversation fetch this id
  | UnclaimConversation => fun fetch id => unclaimConversation fetch this id
  | GetExpertProfile => fun fetch _ => getExpertProfile fetch this
  | UpdateExpertProfile => fun fetch request => updateExpertProfile fetch this request
  | GetExpertAssignmentHistory => fun fetch _ => getExpertAssignmentHistory fetch this
  end.

(** The name of the method in the class. *)
Definition name (m : Method) : string :=
  match m with
  | GetConversations => "getConversations"
  | GetConversation => "getConversation"
  | CreateConversation => "createConversation"
  | UpdateConversation => "updateConversation"
  | DeleteConversation => "deleteConversation"
  | GetMessages => "getMessages"
  | SendMessage => "sendMessage"
  | MarkMessageAsRead => "markMessageAsRead"
  | GetExpertQueue => "getExpertQueue"
  | ClaimConversation => "claimConversation"
  | UnclaimConversation => "unclaimConversation"
  | GetExpertProfile => "getExpertProfile"
  | UpdateExpertProfile => "updateExpertProfile"
  | GetExpertAssignmentHistory => "getExpertAssignmentHistory"
  end.

(** Every operation can be called. *)
#[global] Instance Args_inhabited (m : Method) : Inhabited (Args m).
Proof. destruct m; simpl; apply _. Defined.

End ChatService.

(** ** Reading a run *)

(** What [makeRequest] makes of the network's answer: a rejection passes
    through; a response that is not [ok] becomes the error built from its
    status and text; an [ok] response gives its parsed body. *)
Definition classify {T} (answer : JS.Completion (Response T)) : JS.Completion T :=
  match answer with
  | JS.Throw e => JS.Throw e
  | JS.Return r =>
      if ok r then json r
      else
        match text r with
        | JS.Return t =>
            JS.Throw (JS.new_Error
                        ("Request failed with status " ++ pretty (status r) ++ ": " ++ t))
        | JS.Throw e => JS.Throw e
        end
  end.

(** The network's answer to the one request made between [w] and [w'];
    [None] when there was no request, or more than one. *)
Definition answer_of {T} (fetch : Fetch T) (w w' : World)
  : option (JS.Completion (Response T)) :=
  match issued w w' with
  | [r] => Some (fetch (url r) (init r))
  | _ => None
  end.

(** The value of header [k] on a request. *)
Definition header (r : Request) (k : string) : option string :=
  default ∅ (headers (init r)) !! k.

(** The [Authorization] headers of the requests a call makes from [w], one
    entry per request: [None] for a request without the header. *)
Definition authorization_sent {A} (m : Async A) (w : World) : list (option string) :=
  map (fun r => header r "Authorization") (issued w (world_after m w)).

(** The bodies of the requests a call makes from [w]. *)
Definition bodies_sent {A} (m : Async A) (w : World) : list (option string) :=
  map (fun r => body (init r)) (issued w (world_after m w)).

(** Two objects have the same values at the properties [fields]. *)
Definition agree_on (fields : list string) (o1 o2 : JS.Obj) : Prop :=
  Forall (fun k => JS.get o1 k = JS.get o2 k) fields.

(** The options either executor hands to [fetch], given the headers. *)
Definition fetch_options (options : RequestInit) (hs : gmap string string)
  : RequestInit :=
  mkRequestInit (method options) (Some hs) (body options) (Some "include").

Definition default_headers (options : RequestInit) : gmap string string :=
  default ∅ (headers options) ∪ {[ "Content-Type" := "application/json" ]}.

(** The headers of the chat executor when the store holds [tok]. *)
Definition chat_headers (tok : option string) (options : RequestInit)
  : gmap string string :=
  match tok with
  | Some c =>
      if JS.truthy c
      then <[ "Authorization" := "Bearer " ++ c ]> (default_headers options)
      else default_headers options
  | None => default_headers options
  end.

(** An operation that is a placeholder: whatever it is given, it throws
    its fixed message and calls [fetch] not at all. *)
Definition placeholder (m : ChatService.Method) : Prop :=
  forall this fetch args w,
    result_of (ChatService.invoke this m fetch args) w
      = JS.Throw (JS.new_Error (ChatService.name m ++ " method not implemented"))
    /\ issued w (world_after (ChatService.invoke this m fetch args) w) = [].

(** The operations the class leaves unimplemented. *)
Definition stubs : list ChatService.Method :=
  [ChatService.UpdateConversation; ChatService.DeleteConversation;
   ChatService.MarkMessageAsRead].

(** [login] or [register], with what it is called on. *)
Inductive SignIn : Type :=
  | ByLogin (username password : string)
  | ByRegister (userData : ApiAuthService.RegisterRequest).

Definition sign_in (fetch : Fetch ApiAuthService.AuthResponse)
    (this : ApiAuthService.t) (s : SignIn) : Async ApiAuthService.User :=
  match s with
  | ByLogin username password => ApiAuthService.login fetch this username password
  | ByRegister userData => ApiAuthService.register fetch this userData
  end.

(** A call that writes the token: it makes one request; when that
    succeeds with an envelope, the envelope's token is stored and its user
    returned; when it fails, the failure is the call's and the store is as
    it was. *)
Definition writes_token (fetch : Fetch ApiAuthService.AuthResponse)
    (call : Async ApiAuthService.User)
    (w : World) : Prop :=
  exists a,
    answer_of fetch w (world_after call w) = Some a /\
    match classify a with
    | JS.Return envelope =>
        result_of call w = JS.Return (ApiAuthService.user envelope) /\
        stored_token (world_after call w) = Some (ApiAuthService.token envelope)
    | JS.Throw e =>
        result_of call w = JS.Throw e /\
        stored_token (world_after call w) = stored_token w
    end.

(** The operations that send a body, with the fields of the request
    object each is to build it from. *)
Inductive WithBody : Type :=
  | CreateConversation
  | SendMessage
  | UpdateExpertProfile.

Definition allow_list (op : WithBody) : list string :=
  match op with
  | CreateConversation => ["title"]
  | SendMessage => ["conversationId"; "content"]
  | UpdateExpertProfile => ["bio"; "knowledgeBaseLinks"]
  end.

Definition send (op : WithBody) (fetch : Fetch JS.Value) (this : ApiChatService.t)
    (request : JS.Obj) : Async JS.Value :=
  match op with
  | CreateConversation => ApiChatService.createConversation fetch this request
  | SendMessage => ApiChatService.sendMessage fetch this request
  | UpdateExpertProfile => ApiChatService.updateExpertProfile fetch this request
  end.

(** ** Servers and worlds to run the services against *)

Module Mock.

(** A server that answers every request with status [code] and the JSON
    [payload]; the response is [ok] for a status from 200 to 299. *)
Definition respond {T} (code : N) (payload : T) : Fetch T :=
  fun _ _ =>
    JS.Return (mkResponse (N.leb 200 code && N.leb code 299) code
                 (JS.Return "") (JS.Return payload)).

(** A server that refuses every request with status [code] and a body
    that is the text [reason], not JSON. *)
Definition refuse {T} (code : N) (reason : string) : Fetch T :=
  fun _ _ =>
    JS.Return (mkResponse false code (JS.Return reason)
                 (JS.Throw (JS.mkError "SyntaxError" "Unexpected token"))).

(** No network. *)
Definition unreachable {T} : Fetch T :=
  fun _ _ => JS.Throw (JS.mkError "TypeError" "Failed to fetch").

(** A world where nothing has happened yet. *)
Definition anonymous : World := mkWorld None [] [].
Definition signed_in (t : string) : World := mkWorld (Some t) [] [].

Definition auth : ApiAuthService.t :=
  ApiAuthService.constructor (ApiAuthService.mkConfig None 0 0).
Definition chat : ApiChatService.t :=
  ApiChatService.constructor (ApiChatService.mkConfig "http://localhost:3000" 0 0).

End Mock.

(** ** The [AuthService] interface *)

Module AuthService.

Import ApiAuthService.

(** The operations of the interface [ApiAuthService] implements. *)
Inductive Method : Type :=
  | Login
  | Register
  | Logout
  | RefreshToken
  | GetCurrentUser.

(** What an operation takes. *)
Definition Args (m : Method) : Type :=
  match m with
  | Login => (string * string)%type
  | Register => RegisterRequest
  | Logout | RefreshToken | GetCurrentUser => unit
  end.

(** The type its call of [makeRequest] gives the parsed body. *)
Definition Payload (m : Method) : Type :=
  match m with
  | Login | Register | RefreshToken => AuthResponse
  | Logout => LogoutResponse
  | GetCurrentUser => User
  end.

(** What its promise resolves to. *)
Definition Result (m : Method) : Type :=
  match m with
  | Login | Register | RefreshToken => User
  | Logout => unit
  | GetCurrentUser => option User
  end.

(** [this.m(args)]. *)
Definition invoke (this : t) (m : Method)
  : Fetch (Payload m) -> Args m -> Async (Result m) :=
  match m with
  | Login => fun fetch a => login fetch this (fst a) (snd a)
  | Register => fun fetch userData => register fetch this userData
  | Logout => fun fetch _ => logout fetch this
  | RefreshToken => fun fetch _ => refreshToken fetch this
  | GetCurrentUser => fun fetch _ => getCurrentUser fetch this
  end.

End AuthService.

(** ** Reading a run, continued *)

(** What was written to the console between [w] and [w']. *)
Definition console_added (w w' : World) : list (list LogArg) :=
  drop (length (console w)) (console w').

(** The world [w] with another content of the token store. *)
Definition with_token (t : option string) (w : World) : World :=
  mkWorld t (requests w) (console w).

(** The fields of a [register] request object that reach the server. *)
Definition register_fields : list string := ["username"; "password"].

(** A server that answers 204 with an empty body, on which [json()] fails. *)
Definition no_content {T} : Fetch T :=
  fun _ _ =>
    JS.Return (mkResponse true 204 (JS.Return "")
                 (JS.Throw (JS.mkError "SyntaxError" "Unexpected end of JSON input"))).

(** A server that answers 502 and whose body cannot be read. *)
Definition broken_body {T} : Fetch T :=
  fun _ _ =>
    JS.Return (mkResponse false 502
                 (JS.Throw (JS.mkError "TypeError" "Failed to fetch"))
                 (JS.Throw (JS.mkError "TypeError" "Failed to fetch"))).

(** No character of the string is a colon. *)
Fixpoint no_colon (s : string) : Prop :=
  match s with
  | EmptyString => True
  | String c rest => c ≠ ":"%char /\ no_colon rest
  end.

(** * Properties *)

(** ** The executors *)

Lemma issued_app w rs c t :
  issued w (mkWorld t (requests w ++ rs) c) = rs.
Proof. unfold issued; simpl. by rewrite drop_app_length. Qed.

Lemma issued_refl w : issued w w = [].
Proof. unfold issued. by rewrite drop_all. Qed.

Ltac run := unfold mbind, mret, async_bind, async_ret, bind, ret, throw,
  await, try_catch, call_fetch, console_log, TokenManager.getToken,
  TokenManager.setToken, TokenManager.clearToken; simpl.

(** The auth executor: one request, built from the options alone; the
    outcome is [classify] of the answer; the token store is not touched. *)
Lemma auth_makeRequest_run {T} (fetch : Fetch T) this endpoint options w :
  let r := mkRequest (ApiAuthService.baseUrl this ++ endpoint)
             (fetch_options options (default_headers options)) in
  ApiAuthService.makeRequest fetch this endpoint options w
  = (classify (fetch (ApiAuthService.baseUrl this ++ endpoint)
                 (fetch_options options (default_headers options))),
     mkWorld (stored_token w) (requests w ++ [r])
       (console w ++ [[LogStr "fetch options"]]
                  ++ [[LogStr "fetchOptions:";
                       LogInit (fetch_options options (default_headers options))]])).
Proof.
  unfold ApiAuthService.makeRequest, classify, fetch_options, default_headers.
  run. rewrite <- app_assoc. simpl.
  destruct (fetch _ _) as [resp|e]; [|done].
  destruct (ok resp); simpl; [by destruct (json resp)|by destruct (text resp)].
Qed.

(** The chat executor: one request, carrying [chat_headers] of the stored
    token; the outcome is [classify] of the answer; the world changes by
    that request only. *)
Lemma chat_makeRequest_run {T} (fetch : Fetch T) this endpoint options w :
  let r := mkRequest (ApiChatService.baseUrl this ++ endpoint)
             (fetch_options options (chat_headers (stored_token w) options)) in
  ApiChatService.makeRequest fetch this endpoint options w
  = (classify (fetch (ApiChatService.baseUrl this ++ endpoint)
                 (fetch_options options (chat_headers (stored_token w) options))),
     mkWorld (stored_token w) (requests w ++ [r]) (console w)).
Proof.
  unfold ApiChatService.makeRequest, classify, fetch_options, chat_headers,
    default_headers.
  run.
  destruct (fetch _ _) as [resp|e]; [|done].
  destruct (ok resp); simpl; [by destruct (json resp)|by destruct (text resp)].
Qed.

Lemma classify_rejected {T} e : classify (T:=T) (JS.Throw e) = JS.Throw e.
Proof. reflexivity. Qed.

Lemma classify_ok {T} (resp : Response T) v :
  ok resp = true -> json resp = JS.Return v ->
  classify (JS.Return resp) = JS.Return v.
Proof. unfold classify. by intros -> ->. Qed.

Lemma classify_not_ok {T} (resp : Response T) t :
  ok resp = false -> text resp = JS.Return t ->
  classify (JS.Return resp)
  = JS.Throw (JS.new_Error
                ("Request failed with status " ++ pretty (status resp) ++ ": " ++ t)).
Proof. unfold classify. by intros -> ->. Qed.

(** ** The auth flow *)

Section AuthFlow.

Import ApiAuthService.

Variable this : ApiAuthService.t.

Lemma store_response_writes_token fetch endpoint options w :
  writes_token fetch
    (response ← makeRequest fetch this endpoint options;
     TokenManager.setToken (token response);;
     mret (user response)) w.
Proof.
  unfold writes_token, result_of, world_after, answer_of.
  run. rewrite auth_makeRequest_run. cbv zeta.
  destruct (classify _) as [envelope|e] eqn:E; simpl;
    rewrite issued_app; simpl; eexists; (split; [done|]); by rewrite E.
Qed.

Lemma login_writes_token fetch username password w :
  writes_token fetch (login fetch this username password) w.
Proof. apply store_response_writes_token. Qed.

Lemma register_writes_token fetch userData w :
  writes_token fetch (register fetch this userData) w.
Proof. apply store_response_writes_token. Qed.

Lemma refreshToken_writes_token fetch w :
  writes_token fetch (refreshToken fetch this) w.
Proof. apply store_response_writes_token. Qed.

Lemma sign_in_writes_token fetch s w :
  writes_token fetch (sign_in fetch this s) w.
Proof. destruct s; [apply login_writes_token|apply register_writes_token]. Qed.

(** [logout]: one request; the store is cleared when the request fails and
    is as it was when it succeeds; the promise is fulfilled either way. *)
Lemma logout_run fetch w :
  exists a,
    answer_of fetch w (world_after (logout fetch this) w) = Some a /\
    result_of (logout fetch this) w = JS.Return tt /\
    stored_token (world_after (logout fetch this) w)
    = match classify a with
      | JS.Return _ => stored_token w
      | JS.Throw _ => None
      end.
Proof.
  unfold logout, result_of, world_after, answer_of.
  run. rewrite auth_makeRequest_run. cbv zeta.
  destruct (classify _) as [v|e] eqn:E; simpl;
    rewrite issued_app; simpl; eexists; (split; [done|]); by rewrite E.
Qed.

(** [getCurrentUser]: one request; its payload on success; on failure
    [null], with the store cleared. *)
Lemma getCurrentUser_run fetch w :
  exists a,
    answer_of fetch w (world_after (getCurrentUser fetch this) w) = Some a /\
    match classify a with
    | JS.Return u =>
        result_of (getCurrentUser fetch this) w = JS.Return (Some u) /\
        stored_token (world_after (getCurrentUser fetch this) w) = stored_token w
    | JS.Throw _ =>
        result_of (getCurrentUser fetch this) w = JS.Return None /\
        stored_token (world_after (getCurrentUser fetch this) w) = None
    end.
Proof.
  unfold getCurrentUser, result_of, world_after, answer_of.
  run. rewrite auth_makeRequest_run. cbv zeta.
  destruct (classify _) as [v|e] eqn:E; simpl;
    rewrite issued_app; simpl; eexists; (split; [done|]); by rewrite E.
Qed.

End AuthFlow.

(** ** The chat operations *)

Lemma bind_ret {A} (m : Async A) w : (x ← m; mret x) w = m w.
Proof. run. by destruct (m w) as [[a|e] w']. Qed.

(** Every operation of the interface is a placeholder, or one call of the
    executor with a fixed verb, no headers of its own, and a body that is
    absent or comes from [JSON.stringify]. *)
Lemma invoke_run this m fetch args w :
  (m ∈ stubs /\
   ChatService.invoke this m fetch args w
   = (JS.Throw (JS.new_Error (ChatService.name m ++ " method not implemented")), w))
  \/
  ((m ∉ stubs) /\
   exists endpoint options,
     headers options = None /\
     ChatService.invoke this m fetch args w
     = ApiChatService.makeRequest fetch this endpoint options w).
Proof.
  unfold stubs.
  destruct m; simpl in *;
    first [ left; split; [compute_done|reflexivity]
          | right; split; [compute_done|];
            eexists _, (mkRequestInit _ None _ None);
            split; [reflexivity|apply bind_ret] ].
Qed.

Lemma truthy_nonempty c : JS.truthy c = true <-> c ≠ "".
Proof.
  unfold JS.truthy. destruct (String.eqb_spec c ""); simpl; split; congruence.
Qed.

Lemma default_headers_authorization options :
  default_headers options !! "Authorization"
  = default ∅ (headers options) !! "Authorization".
Proof.
  unfold default_headers. rewrite lookup_union.
  rewrite lookup_singleton_ne by done.
  by destruct (default ∅ (headers options) !! "Authorization").
Qed.

Lemma chat_headers_bearer c options :
  c ≠ "" ->
  chat_headers (Some c) options !! "Authorization" = Some ("Bearer " ++ c).
Proof.
  intros Hc%truthy_nonempty. unfold chat_headers. rewrite Hc.
  apply lookup_insert_eq.
Qed.

Lemma chat_headers_absent tok options :
  tok = None \/ tok = Some "" ->
  chat_headers tok options !! "Authorization"
  = default ∅ (headers options) !! "Authorization".
Proof.
  intros [->| ->]; unfold chat_headers; simpl; apply default_headers_authorization.
Qed.

(** What an operation of the interface leaves behind: nothing for a
    placeholder; else one request with the chat headers and the outcome
    [classify] gives, and the same stored token. *)
Lemma invoke_world this m fetch args w :
  (m ∈ stubs /\
   ChatService.invoke this m fetch args w
   = (JS.Throw (JS.new_Error (ChatService.name m ++ " method not implemented")), w))
  \/
  ((m ∉ stubs) /\
   exists r,
     issued w (world_after (ChatService.invoke this m fetch args) w) = [r] /\
     (forall k, header r k = chat_headers (stored_token w) empty_init !! k) /\
     result_of (ChatService.invoke this m fetch args) w
     = classify (fetch (url r) (init r)) /\
     stored_token (world_after (ChatService.invoke this m fetch args) w)
     = stored_token w).
Proof.
  destruct (invoke_run this m fetch args w)
    as [H|(Hm & endpoint & options & Hh & H)]; [by left|right].
  split; [done|].
  unfold result_of, world_after. rewrite H, chat_makeRequest_run. cbv zeta.
  eexists. simpl. rewrite issued_app.
  split; [reflexivity|]. split; [|done].
  intros k. unfold header, chat_headers, default_headers. simpl. by rewrite Hh.
Qed.

(** ** Claims on the auth flow *)

(** C1, at the input where the code departs from it: [logout()] with the
    token "t1" stored, against a server that answers 200. The promise is
    fulfilled and the token is still "t1" afterwards: [clearToken] sits in
    the [catch] block, which a successful request never enters. *)
Theorem logout_after_success_still_holds_token :
  result_of
    (ApiAuthService.logout
       (Mock.respond 200 (ApiAuthService.mkLogoutResponse "Logged out")) Mock.auth)
    (Mock.signed_in "t1") = JS.Return tt /\
  stored_token
    (world_after
       (ApiAuthService.logout
          (Mock.respond 200 (ApiAuthService.mkLogoutResponse "Logged out")) Mock.auth)
       (Mock.signed_in "t1")) = Some "t1".
Proof. split; reflexivity. Qed.

(** C2: [getCurrentUser()] never rejects. It makes one request; when that
    succeeds the user of the response is returned, and when it fails, in
    whatever way, [null] is returned and the stored token is gone. *)
Theorem getCurrentUser_never_throws fetch this w :
  (exists r, result_of (ApiAuthService.getCurrentUser fetch this) w = JS.Return r) /\
  exists a,
    answer_of fetch w (world_after (ApiAuthService.getCurrentUser fetch this) w)
    = Some a /\
    match classify a with
    | JS.Return u =>
        result_of (ApiAuthService.getCurrentUser fetch this) w = JS.Return (Some u)
    | JS.Throw _ =>
        result_of (ApiAuthService.getCurrentUser fetch this) w = JS.Return None /\
        stored_token (world_after (ApiAuthService.getCurrentUser fetch this) w) = None
    end.
Proof.
  destruct (getCurrentUser_run this fetch w) as (a & Ha & H).
  split.
  - destruct (classify a) as [u|e]; [exists (Some u)|exists None]; tauto.
  - exists a. split; [done|]. destruct (classify a) as [u|e]; tauto.
Qed.

(** [getCurrentUser()] when the session is gone: 401, so [null], and the
    token that was stored is cleared. *)
Example getCurrentUser_unauthorized :
  result_of (ApiAuthService.getCurrentUser (Mock.refuse 401 "Unauthorized") Mock.auth)
    (Mock.signed_in "t1") = JS.Return None /\
  stored_token
    (world_after
       (ApiAuthService.getCurrentUser (Mock.refuse 401 "Unauthorized") Mock.auth)
       (Mock.signed_in "t1")) = None.
Proof. split; reflexivity. Qed.

(** [getCurrentUser()] with no network at all. *)
Example getCurrentUser_offline :
  result_of (ApiAuthService.getCurrentUser Mock.unreachable Mock.auth)
    (Mock.signed_in "t1") = JS.Return None /\
  stored_token
    (world_after (ApiAuthService.getCurrentUser Mock.unreachable Mock.auth)
       (Mock.signed_in "t1")) = None.
Proof. split; reflexivity. Qed.

(** C3: a [login] or [register] call makes one request; when that request
    is answered by an [ok] response whose body parses to an envelope, the
    call returns the envelope's [user] and the store then holds the
    envelope's [token]. *)
Theorem sign_in_stores_token fetch this s w :
  exists a,
    answer_of fetch w (world_after (sign_in fetch this s) w) = Some a /\
    forall resp envelope,
      a = JS.Return resp ->
      ok resp = true ->
      json resp = JS.Return envelope ->
      result_of (sign_in fetch this s) w
      = JS.Return (ApiAuthService.user envelope) /\
      stored_token (world_after (sign_in fetch this s) w)
      = Some (ApiAuthService.token envelope).
Proof.
  destruct (sign_in_writes_token this fetch s w) as (a & Ha & H).
  exists a. split; [done|].
  intros resp envelope -> Hok Hjson.
  by rewrite (classify_ok _ _ Hok Hjson) in H.
Qed.

(** The scenario of C3: [login("alice", "pw")] against a server returning
    [{user: {id: "u1"}, token: "t1"}]. *)
Lemma sign_in_stores_token_scenario :
  result_of
    (ApiAuthService.login
       (Mock.respond 200
          (ApiAuthService.mkAuthResponse (JS.Object [("id", JS.Str "u1")]) "t1"))
       Mock.auth "alice" "pw")
    Mock.anonymous
  = JS.Return (JS.Object [("id", JS.Str "u1")]) /\
  stored_token
    (world_after
       (ApiAuthService.login
          (Mock.respond 200
             (ApiAuthService.mkAuthResponse (JS.Object [("id", JS.Str "u1")]) "t1"))
          Mock.auth "alice" "pw")
       Mock.anonymous)
  = Some "t1".
Proof.
  destruct (sign_in_stores_token
              (Mock.respond 200
                 (ApiAuthService.mkAuthResponse (JS.Object [("id", JS.Str "u1")]) "t1"))
              Mock.auth (ByLogin "alice" "pw") Mock.anonymous) as (a & Ha & H).
  vm_compute in Ha. injection Ha as <-.
  exact (H _ _ eq_refl eq_refl eq_refl).
Defined.

(** C4: when the request of a [login] or [register] call fails with [e]
    (a rejected [fetch], or the error made from a response that is not
    [ok]), the call rejects with [e] and the stored token is what it was
    before the call. *)
Theorem sign_in_failure_keeps_token fetch this s w a e :
  answer_of fetch w (world_after (sign_in fetch this s) w) = Some a ->
  classify a = JS.Throw e ->
  result_of (sign_in fetch this s) w = JS.Throw e /\
  stored_token (world_after (sign_in fetch this s) w) = stored_token w.
Proof.
  intros Ha He.
  destruct (sign_in_writes_token this fetch s w) as (a' & Ha' & H).
  rewrite Ha in Ha'. injection Ha' as <-.
  by rewrite He in H.
Qed.

(** C4 at work: [register] refused with 422 while "old" is stored. *)
Lemma sign_in_failure_keeps_token_witness :
  result_of
    (ApiAuthService.register (Mock.refuse 422 "taken") Mock.auth
       [("username", JS.Str "bob"); ("password", JS.Str "pw")])
    (Mock.signed_in "old")
  = JS.Throw (JS.new_Error "Request failed with status 422: taken") /\
  stored_token
    (world_after
       (ApiAuthService.register (Mock.refuse 422 "taken") Mock.auth
          [("username", JS.Str "bob"); ("password", JS.Str "pw")])
       (Mock.signed_in "old"))
  = Some "old".
Proof.
  exact (sign_in_failure_keeps_token (Mock.refuse 422 "taken") Mock.auth
           (ByRegister [("username", JS.Str "bob"); ("password", JS.Str "pw")])
           (Mock.signed_in "old")
           (JS.Return (mkResponse false 422 (JS.Return "taken")
                         (JS.Throw (JS.mkError "SyntaxError" "Unexpected token"))))
           (JS.new_Error "Request failed with status 422: taken")
           eq_refl eq_refl).
Defined.

(** C5: [refreshToken()] makes one request. When it succeeds with an
    envelope, the envelope's [token] replaces the stored one and the
    envelope's [user] is returned; when it fails with [e], the call rejects
    with [e] and the stored token is what it was. *)
Theorem refreshToken_replaces_or_keeps fetch this w :
  exists a,
    answer_of fetch w (world_after (ApiAuthService.refreshToken fetch this) w)
    = Some a /\
    match classify a with
    | JS.Return envelope =>
        result_of (ApiAuthService.refreshToken fetch this) w
        = JS.Return (ApiAuthService.user envelope) /\
        stored_token (world_after (ApiAuthService.refreshToken fetch this) w)
        = Some (ApiAuthService.token envelope)
    | JS.Throw e =>
        result_of (ApiAuthService.refreshToken fetch this) w = JS.Throw e /\
        stored_token (world_after (ApiAuthService.refreshToken fetch this) w)
        = stored_token w
    end.
Proof. exact (refreshToken_writes_token this fetch w). Qed.

(** [refreshToken()] against a server that issues "t2", and against one
    that answers 401: the old token "t1" is replaced, or kept. *)
Example refreshToken_both_ways :
  stored_token
    (world_after
       (ApiAuthService.refreshToken
          (Mock.respond 200 (ApiAuthService.mkAuthResponse JS.Null "t2")) Mock.auth)
       (Mock.signed_in "t1")) = Some "t2" /\
  stored_token
    (world_after
       (ApiAuthService.refreshToken (Mock.refuse 401 "expired") Mock.auth)
       (Mock.signed_in "t1")) = Some "t1" /\
  result_of (ApiAuthService.refreshToken (Mock.refuse 401 "expired") Mock.auth)
    (Mock.signed_in "t1")
  = JS.Throw (JS.new_Error "Request failed with status 401: expired").
Proof. repeat split; reflexivity. Qed.

(** C10, as amended: [logout()] makes one request and is fulfilled. The
    stored token is what it was before exactly when that request is
    answered by an [ok] response whose body parses; in every other case,
    an [ok] response whose body does not parse among them, the token is
    cleared: the clearing runs when [makeRequest] throws, and only then. *)
Theorem logout_clears_token_exactly_on_throw fetch this w :
  exists a,
    answer_of fetch w (world_after (ApiAuthService.logout fetch this) w) = Some a /\
    result_of (ApiAuthService.logout fetch this) w = JS.Return tt /\
    stored_token (world_after (ApiAuthService.logout fetch this) w)
    = match a with
      | JS.Return resp =>
          if ok resp then
            match json resp with
            | JS.Return _ => stored_token w
            | JS.Throw _ => None
            end
          else None
      | JS.Throw _ => None
      end.
Proof.
  destruct (logout_run this fetch w) as (a & Ha & Hr & Ht).
  exists a. split; [done|]. split; [done|].
  rewrite Ht. unfold classify.
  destruct a as [resp|e]; [|done].
  destruct (ok resp); [by destruct (json resp)|by destruct (text resp)].
Qed.

(** C10 at work: a signed-in user logs out against a server that answers
    200 with a body that parses; the token stays. *)
Lemma logout_success_leaves_token_witness :
  result_of
    (ApiAuthService.logout
       (Mock.respond 200 (ApiAuthService.mkLogoutResponse "bye")) Mock.auth)
    (Mock.signed_in "t7") = JS.Return tt /\
  stored_token
    (world_after
       (ApiAuthService.logout
          (Mock.respond 200 (ApiAuthService.mkLogoutResponse "bye")) Mock.auth)
       (Mock.signed_in "t7")) = Some "t7".
Proof.
  destruct (logout_clears_token_exactly_on_throw
              (Mock.respond 200 (ApiAuthService.mkLogoutResponse "bye")) Mock.auth
              (Mock.signed_in "t7")) as (a & Ha & Hr & Ht).
  vm_compute in Ha. injection Ha as <-.
  split; [exact Hr|exact Ht].
Defined.

(** C10 as stated fails: against a server that answers 204 with an empty
    body the network call succeeds, the response is [ok], and yet the
    stored token "t1" is cleared, since [json()] throws inside the [try]
    block and the [catch] block runs. *)
Lemma logout_clears_token_on_ok_without_body :
  ~ (forall (fetch : Fetch ApiAuthService.LogoutResponse) this w resp,
       answer_of fetch w (world_after (ApiAuthService.logout fetch this) w)
       = Some (JS.Return resp) ->
       ok resp = true ->
       stored_token (world_after (ApiAuthService.logout fetch this) w)
       = stored_token w).
Proof.
  intros H.
  specialize (H no_content Mock.auth (Mock.signed_in "t1")
                (mkResponse true 204 (JS.Return "")
                   (JS.Throw (JS.mkError "SyntaxError" "Unexpected end of JSON input")))
                eq_refl eq_refl).
  vm_compute in H. discriminate H.
Qed.

(** ** Claims on the chat operations *)

Lemma stub_is_placeholder m : m ∈ stubs -> placeholder m.
Proof.
  intros Hm this fetch args w.
  destruct (invoke_world this m fetch args w) as [[_ H]|[Hn _]]; [|done].
  unfold result_of, world_after. rewrite H. simpl.
  split; [done|apply issued_refl].
Qed.

Lemma placeholder_is_stub m : placeholder m -> m ∈ stubs.
Proof.
  intros Hp.
  destruct (Hp Mock.chat Mock.unreachable inhabitant Mock.anonymous) as [_ Hnone].
  destruct (invoke_world Mock.chat m Mock.unreachable inhabitant Mock.anonymous)
    as [[Hm _]|(_ & r & Hr & _)]; [done|].
  by rewrite Hr in Hnone.
Qed.

Lemma agree_on_set fields o k v :
  k ∉ fields -> agree_on fields o (JS.set o k v).
Proof.
  intros Hk. apply Forall_forall. intros f Hf.
  assert (k ≠ f) as Hne by (intros ->; done). clear Hk Hf.
  induction o as [|[k' v'] o IH]; simpl.
  - by destruct (String.eqb_spec k f).
  - destruct (String.eqb_spec k' k) as [->|]; simpl.
    + by destruct (String.eqb_spec k f).
    + by destruct (String.eqb_spec k' f).
Qed.

Lemma send_agree op fetch this request1 request2 :
  agree_on (allow_list op) request1 request2 ->
  send op fetch this request1 = send op fetch this request2.
Proof.
  unfold agree_on. intros H.
  destruct op; simpl in H; repeat (apply Forall_cons in H as [? H]);
    unfold send, ApiChatService.createConversation, ApiChatService.sendMessage,
      ApiChatService.updateExpertProfile; congruence.
Qed.

(** A field outside the allow-list makes no difference to the run. *)
Lemma extra_field_is_dropped op fetch this request k v :
  k ∉ allow_list op ->
  send op fetch this (JS.set request k v) = send op fetch this request.
Proof. intros Hk. symmetry. by apply send_agree, agree_on_set. Qed.

Lemma auth_request_headers {T} (fetch : Fetch T) this endpoint options w :
  authorization_sent (ApiAuthService.makeRequest fetch this endpoint options) w
  = [default ∅ (headers options) !! "Authorization"].
Proof.
  unfold authorization_sent, world_after. rewrite auth_makeRequest_run.
  cbv zeta. simpl. rewrite issued_app. simpl. f_equal.
  apply default_headers_authorization.
Qed.

Lemma chat_request_headers this m fetch args w :
  authorization_sent (ChatService.invoke this m fetch args) w
  = if decide (m ∈ stubs) then []
    else [chat_headers (stored_token w) empty_init !! "Authorization"].
Proof.
  unfold authorization_sent.
  destruct (invoke_world this m fetch args w)
    as [[Hm H]|(Hm & r & Hr & Hh & _)]; rewrite decide_bool_decide.
  - rewrite (bool_decide_eq_true_2 _ Hm).
    unfold world_after. rewrite H. simpl. by rewrite issued_refl.
  - rewrite (bool_decide_eq_false_2 _ Hm). rewrite Hr. simpl. by rewrite Hh.
Qed.

(** The chat executor on any options: a non-empty stored token decides the
    [Authorization] header, over what the caller put there; without one the
    caller's header, if any, goes out. *)
Lemma chat_makeRequest_headers {T} (fetch : Fetch T) this endpoint options w :
  authorization_sent (ApiChatService.makeRequest fetch this endpoint options) w
  = [match stored_token w with
     | Some c =>
         if JS.truthy c then Some ("Bearer " ++ c)
         else default ∅ (headers options) !! "Authorization"
     | None => default ∅ (headers options) !! "Authorization"
     end].
Proof.
  unfold authorization_sent, world_after. rewrite chat_makeRequest_run.
  cbv zeta. simpl. rewrite issued_app. simpl. f_equal.
  unfold header, chat_headers. simpl.
  destruct (stored_token w) as [c|]; [destruct (JS.truthy c)|];
    first [apply lookup_insert_eq|apply default_headers_authorization].
Qed.

Ltac auth_call :=
  unfold authorization_sent, world_after, ApiAuthService.login,
    ApiAuthService.register, ApiAuthService.logout, ApiAuthService.refreshToken,
    ApiAuthService.getCurrentUser;
  run; rewrite auth_makeRequest_run; cbv zeta;
  destruct (classify _); simpl; rewrite issued_app; reflexivity.

(** C6, as amended. Through the chat executor: with a non-empty token [c]
    stored, an operation that is not a placeholder makes one request, and
    its [Authorization] header is [Bearer c]; with no token stored, or the
    empty string stored, its one request has no [Authorization] header; a
    placeholder makes no request. Through the auth executor: the
    [Authorization] header of the request is the one in the options handed
    to [makeRequest], whatever the store holds, and the five operations of
    the class, which hand it none, send none. *)
Theorem authorization_header_follows_token :
  (forall this m fetch args w c,
     stored_token w = Some c -> c ≠ "" ->
     authorization_sent (ChatService.invoke this m fetch args) w
     = if decide (m ∈ stubs) then [] else [Some ("Bearer " ++ c)]) /\
  (forall this m fetch args w,
     stored_token w = None \/ stored_token w = Some "" ->
     authorization_sent (ChatService.invoke this m fetch args) w
     = if decide (m ∈ stubs) then [] else [None]) /\
  (forall T (fetch : Fetch T) this endpoint options w,
     authorization_sent (ApiAuthService.makeRequest fetch this endpoint options) w
     = [default ∅ (headers options) !! "Authorization"]) /\
  (forall fetch_envelope fetch_message fetch_user this username password userData w,
     authorization_sent
       (ApiAuthService.login fetch_envelope this username password) w = [None] /\
     authorization_sent
       (ApiAuthService.register fetch_envelope this userData) w = [None] /\
     authorization_sent (ApiAuthService.logout fetch_message this) w = [None] /\
     authorization_sent (ApiAuthService.refreshToken fetch_envelope this) w = [None] /\
     authorization_sent (ApiAuthService.getCurrentUser fetch_user this) w = [None]).
Proof.
  split; [|split; [|split]].
  - intros this m fetch args w c Hc Hne.
    rewrite chat_request_headers, Hc. by rewrite chat_headers_bearer.
  - intros this m fetch args w Hc.
    rewrite chat_request_headers. by rewrite chat_headers_absent.
  - intros. apply auth_request_headers.
  - intros. repeat split; auth_call.
Qed.

(** C6 at work, for each of its parts: [getConversations()] with "t1"
    stored sends [Bearer t1]; with nothing stored it sends no such header;
    a request of the auth executor with "t1" stored has none either. *)
Lemma authorization_header_follows_token_witness :
  authorization_sent
    (ChatService.invoke Mock.chat ChatService.GetConversations
       (Mock.respond 200 []) tt)
    (Mock.signed_in "t1") = [Some "Bearer t1"] /\
  authorization_sent
    (ChatService.invoke Mock.chat ChatService.GetConversations
       (Mock.respond 200 []) tt)
    Mock.anonymous = [None] /\
  authorization_sent
    (ApiAuthService.makeRequest (Mock.respond 200 JS.Null) Mock.auth
       "/auth/me" (mkRequestInit (Some "GET") None None None))
    (Mock.signed_in "t1") = [None].
Proof.
  destruct authorization_header_follows_token as (Hbearer & Hnone & Hauth & _).
  split; [|split].
  - apply (Hbearer Mock.chat ChatService.GetConversations (Mock.respond 200 []) tt
             (Mock.signed_in "t1") "t1"); [reflexivity|discriminate].
  - apply (Hnone Mock.chat ChatService.GetConversations (Mock.respond 200 []) tt
             Mock.anonymous). left; reflexivity.
  - apply (Hauth JS.Value (Mock.respond 200 JS.Null) Mock.auth "/auth/me"
             (mkRequestInit (Some "GET") None None None) (Mock.signed_in "t1")).
Defined.

(** C6 as stated fails: with the empty string stored, a token is present,
    yet [getConversations()] sends its request without an [Authorization]
    header, since [if (token)] takes the empty string for false. *)
Lemma empty_token_sends_no_bearer :
  ~ (forall this m fetch args w c,
       stored_token w = Some c ->
       Forall (fun h => h = Some ("Bearer " ++ c))
         (authorization_sent (ChatService.invoke this m fetch args) w)).
Proof.
  intros H.
  specialize (H Mock.chat ChatService.GetConversations (Mock.respond 200 []) tt
                (Mock.signed_in "") "" eq_refl).
  vm_compute in H. inversion H as [|h hs Hh _]. discriminate Hh.
Qed.

(** C7, as amended: a chat operation that is not a placeholder makes one
    request. When that request is answered by a response that is not
    [ok], with status [s], the stored token is what it was before the
    call, and the operation rejects: with the error "Request failed with
    status s: t" when the body text reads as [t], and with the error of
    the read when the body text cannot be read. *)
Theorem chat_failure_carries_status this m fetch args w :
  m ∉ stubs ->
  exists a,
    answer_of fetch w (world_after (ChatService.invoke this m fetch args) w)
    = Some a /\
    forall resp,
      a = JS.Return resp ->
      ok resp = false ->
      stored_token (world_after (ChatService.invoke this m fetch args) w)
      = stored_token w /\
      result_of (ChatService.invoke this m fetch args) w
      = match text resp with
        | JS.Return t =>
            JS.Throw (JS.new_Error
                        ("Request failed with status " ++ pretty (status resp)
                         ++ ": " ++ t))
        | JS.Throw e => JS.Throw e
        end.
Proof.
  intros Hm.
  destruct (invoke_world this m fetch args w)
    as [[Hs _]|(_ & r & Hr & _ & Hres & Htok)]; [done|].
  exists (fetch (url r) (init r)). split.
  - unfold answer_of. by rewrite Hr.
  - intros resp Ha Hok. split; [done|].
    rewrite Hres, Ha. unfold classify. by rewrite Hok.
Qed.

(** The scenario of C7: [getConversations()] answered with 401. *)
Lemma chat_failure_carries_status_scenario :
  result_of
    (ChatService.invoke Mock.chat ChatService.GetConversations
       (Mock.refuse 401 "Unauthorized") tt)
    (Mock.signed_in "t1")
  = JS.Throw (JS.new_Error "Request failed with status 401: Unauthorized") /\
  stored_token
    (world_after
       (ChatService.invoke Mock.chat ChatService.GetConversations
          (Mock.refuse 401 "Unauthorized") tt)
       (Mock.signed_in "t1"))
  = Some "t1".
Proof.
  destruct (chat_failure_carries_status Mock.chat ChatService.GetConversations
              (Mock.refuse 401 "Unauthorized") tt (Mock.signed_in "t1")
              ltac:(compute_done)) as (a & Ha & H).
  vm_compute in Ha. injection Ha as <-.
  destruct (H _ eq_refl eq_refl) as [Ht Hr].
  split; [exact Hr|exact Ht].
Defined.

(** C7 as stated fails: [getConversations()] answered with 502 and a body
    that cannot be read rejects with the error of the read, which is no
    "Request failed" error and carries neither the status nor a body text. *)
Lemma unreadable_body_carries_no_status :
  ~ (forall this m (fetch : Fetch (ChatService.Result m)) args w resp,
       answer_of fetch w (world_after (ChatService.invoke this m fetch args) w)
       = Some (JS.Return resp) ->
       ok resp = false ->
       exists t,
         result_of (ChatService.invoke this m fetch args) w
         = JS.Throw (JS.new_Error
                       ("Request failed with status " ++ pretty (status resp)
                        ++ ": " ++ t))).
Proof.
  intros H.
  destruct (H Mock.chat ChatService.GetConversations broken_body tt
              (Mock.signed_in "t1")
              (mkResponse false 502
                 (JS.Throw (JS.mkError "TypeError" "Failed to fetch"))
                 (JS.Throw (JS.mkError "TypeError" "Failed to fetch")))
              eq_refl eq_refl) as [t Ht].
  vm_compute in Ht. discriminate Ht.
Qed.

(** C8, as amended: the placeholders are three, [updateConversation],
    [deleteConversation] and [markMessageAsRead], and no other operation
    is one. Each, on every input, throws "<its name> method not
    implemented" and makes no request. *)
Theorem placeholders_are_the_three_stubs m :
  placeholder m <->
  m = ChatService.UpdateConversation \/ m = ChatService.DeleteConversation \/
  m = ChatService.MarkMessageAsRead.
Proof.
  split.
  - intros Hm%placeholder_is_stub. unfold stubs in Hm.
    rewrite !elem_of_cons in Hm. rewrite elem_of_nil in Hm. tauto.
  - intros Hm. apply stub_is_placeholder. unfold stubs.
    rewrite !elem_of_cons. tauto.
Qed.

(** C8 at work: [markMessageAsRead("m1")]. *)
Lemma placeholders_are_the_three_stubs_witness :
  result_of
    (ChatService.invoke Mock.chat ChatService.MarkMessageAsRead
       (Mock.respond 200 tt) "m1")
    (Mock.signed_in "t1")
  = JS.Throw (JS.new_Error "markMessageAsRead method not implemented") /\
  issued (Mock.signed_in "t1")
    (world_after
       (ChatService.invoke Mock.chat ChatService.MarkMessageAsRead
          (Mock.respond 200 tt) "m1")
       (Mock.signed_in "t1")) = [].
Proof.
  exact (proj2 (placeholders_are_the_three_stubs ChatService.MarkMessageAsRead)
           (or_intror (or_intror eq_refl))
           Mock.chat (Mock.respond 200 tt) "m1" (Mock.signed_in "t1")).
Defined.

(** C8 as stated fails: the placeholders are not two. *)
Lemma placeholders_are_not_two :
  ~ (exists a b : ChatService.Method,
       a ≠ b /\ forall m, placeholder m <-> m = a \/ m = b).
Proof.
  intros (a & b & _ & H).
  assert (placeholder ChatService.UpdateConversation) as H1
    by (apply stub_is_placeholder; compute_done).
  assert (placeholder ChatService.DeleteConversation) as H2
    by (apply stub_is_placeholder; compute_done).
  assert (placeholder ChatService.MarkMessageAsRead) as H3
    by (apply stub_is_placeholder; compute_done).
  apply H in H1, H2, H3.
  destruct H1 as [<-|<-], H2 as [?|?], H3 as [?|?]; congruence.
Qed.

(** C9: for [createConversation], [sendMessage] and [updateExpertProfile],
    two request objects that agree on the operation's allow-listed fields,
    whatever other fields either has, send identical bodies, and indeed
    give the same run. The one body sent is [JSON.stringify] of the object
    that has the allow-listed fields, with the request's values, and no
    other field. *)
Theorem body_from_allow_listed_fields op fetch this w request1 request2 :
  agree_on (allow_list op) request1 request2 ->
  bodies_sent (send op fetch this request1) w
  = bodies_sent (send op fetch this request2) w /\
  bodies_sent (send op fetch this request1) w
  = [Some (JSON.stringify (map (fun k => (k, JS.get request1 k)) (allow_list op)))] /\
  send op fetch this request1 w = send op fetch this request2 w.
Proof.
  intros E%(send_agree op fetch this).
  split; [by rewrite E|]. split; [|by rewrite E].
  unfold bodies_sent, world_after.
  destruct op; unfold send, ApiChatService.createConversation,
    ApiChatService.sendMessage, ApiChatService.updateExpertProfile;
    rewrite bind_ret, chat_makeRequest_run; cbv zeta; simpl;
    rewrite issued_app; reflexivity.
Qed.

(** C9 at work: a [sendMessage] request with the extra fields [role] and
    [id] sends the body of the request without them. *)
Lemma body_from_allow_listed_fields_witness :
  bodies_sent
    (ApiChatService.sendMessage (Mock.respond 201 JS.Null) Mock.chat
       [("conversationId", JS.Str "c1"); ("content", JS.Str "hi")])
    Mock.anonymous
  = bodies_sent
      (ApiChatService.sendMessage (Mock.respond 201 JS.Null) Mock.chat
         [("role", JS.Str "admin"); ("conversationId", JS.Str "c1");
          ("id", JS.Number 7); ("content", JS.Str "hi")])
      Mock.anonymous.
Proof.
  exact (proj1 (body_from_allow_listed_fields SendMessage
                  (Mock.respond 201 JS.Null) Mock.chat Mock.anonymous
                  [("conversationId", JS.Str "c1"); ("content", JS.Str "hi")]
                  [("role", JS.Str "admin"); ("conversationId", JS.Str "c1");
                   ("id", JS.Number 7); ("content", JS.Str "hi")]
                  ltac:(repeat constructor))).
Defined.

(** * Further properties of the two services *)

(** ** What every operation leaves behind *)

(** A chat operation that is not a placeholder: the whole run. *)
Lemma chat_invoke_trace this m fetch args w :
  m ∉ stubs ->
  exists endpoint options,
    headers options = None /\
    ChatService.invoke this m fetch args w
    = (classify (fetch (ApiChatService.baseUrl this ++ endpoint)
                   (fetch_options options (chat_headers (stored_token w) options))),
       mkWorld (stored_token w)
         (requests w
          ++ [mkRequest (ApiChatService.baseUrl this ++ endpoint)
                (fetch_options options (chat_headers (stored_token w) options))])
         (console w)).
Proof.
  intros Hm.
  destruct (invoke_run this m fetch args w)
    as [[Hs _]|(_ & endpoint & options & Hh & H)]; [done|].
  exists endpoint, options. split; [done|].
  by rewrite H, chat_makeRequest_run.
Qed.

(** An auth operation: what it adds to the request log and to the console. *)
Lemma auth_invoke_trace this m fetch args w :
  exists endpoint options,
    headers options = None /\
    requests (world_after (AuthService.invoke this m fetch args) w)
    = (requests w
       ++ [mkRequest (ApiAuthService.baseUrl this ++ endpoint)
             (fetch_options options (default_headers options))])%list /\
    console (world_after (AuthService.invoke this m fetch args) w)
    = (console w
       ++ [[LogStr "fetch options"];
           [LogStr "fetchOptions:";
            LogInit (fetch_options options (default_headers options))]])%list.
Proof.
  destruct m; simpl;
    unfold world_after, ApiAuthService.login, ApiAuthService.register,
      ApiAuthService.logout, ApiAuthService.refreshToken,
      ApiAuthService.getCurrentUser;
    run; rewrite auth_makeRequest_run; cbv zeta;
    eexists _, (mkRequestInit _ None _ None); (split; [reflexivity|]);
    destruct (classify _); simpl; split; reflexivity.
Qed.

Lemma issued_of_requests w w' rs :
  requests w' = (requests w ++ rs)%list -> issued w w' = rs.
Proof. unfold issued. intros ->. by rewrite drop_app_length. Qed.

Lemma console_added_of_console w w' ls :
  console w' = (console w ++ ls)%list -> console_added w w' = ls.
Proof. unfold console_added. intros ->. by rewrite drop_app_length. Qed.

Lemma chat_headers_lookup tok :
  chat_headers tok empty_init !! "Authorization"
  = match tok with
    | Some c => if JS.truthy c then Some ("Bearer " ++ c) else None
    | None => None
    end.
Proof.
  destruct tok as [c|]; [destruct (JS.truthy c) eqn:E|].
  - by apply chat_headers_bearer, truthy_nonempty.
  - unfold chat_headers. rewrite E. by rewrite default_headers_authorization.
  - by rewrite chat_headers_absent by tauto.
Qed.

Lemma prefix_app (s t : string) : String.prefix s (s ++ t) = true.
Proof.
  induction s as [|c s IH]; simpl; [by destruct t|].
  destruct (Ascii.ascii_dec c c); [exact IH|done].
Qed.

(** X1: when the request of [logout()] fails, in whatever way, the call
    is fulfilled all the same and the token store is empty afterwards. *)
Theorem logout_failure_clears_token fetch this w a e :
  answer_of fetch w (world_after (ApiAuthService.logout fetch this) w) = Some a ->
  classify a = JS.Throw e ->
  result_of (ApiAuthService.logout fetch this) w = JS.Return tt /\
  stored_token (world_after (ApiAuthService.logout fetch this) w) = None.
Proof.
  intros Ha He.
  destruct (logout_run this fetch w) as (a' & Ha' & Hr & Ht).
  rewrite Ha in Ha'. injection Ha' as <-.
  by rewrite He in Ht.
Qed.

(** X1 at work: logging out with no network. *)
Lemma logout_failure_clears_token_witness :
  result_of (ApiAuthService.logout Mock.unreachable Mock.auth) (Mock.signed_in "t1")
  = JS.Return tt /\
  stored_token
    (world_after (ApiAuthService.logout Mock.unreachable Mock.auth)
       (Mock.signed_in "t1")) = None.
Proof.
  exact (logout_failure_clears_token Mock.unreachable Mock.auth (Mock.signed_in "t1")
           (JS.Throw (JS.mkError "TypeError" "Failed to fetch"))
           (JS.mkError "TypeError" "Failed to fetch") eq_refl eq_refl).
Defined.

(** X2: when the request of [getCurrentUser()] is answered by an [ok]
    response whose body parses to [u], the call returns [u] and the stored
    token is what it was: only a failure clears it. *)
Theorem getCurrentUser_success_keeps_token fetch this w resp u :
  answer_of fetch w (world_after (ApiAuthService.getCurrentUser fetch this) w)
  = Some (JS.Return resp) ->
  ok resp = true ->
  json resp = JS.Return u ->
  result_of (ApiAuthService.getCurrentUser fetch this) w = JS.Return (Some u) /\
  stored_token (world_after (ApiAuthService.getCurrentUser fetch this) w)
  = stored_token w.
Proof.
  intros Ha Hok Hjson.
  destruct (getCurrentUser_run this fetch w) as (a & Ha' & H).
  rewrite Ha in Ha'. injection Ha' as <-.
  by rewrite (classify_ok _ _ Hok Hjson) in H.
Qed.

Lemma getCurrentUser_success_keeps_token_witness :
  result_of
    (ApiAuthService.getCurrentUser
       (Mock.respond 200 (JS.Object [("id", JS.Str "u1")])) Mock.auth)
    (Mock.signed_in "t1")
  = JS.Return (Some (JS.Object [("id", JS.Str "u1")])) /\
  stored_token
    (world_after
       (ApiAuthService.getCurrentUser
          (Mock.respond 200 (JS.Object [("id", JS.Str "u1")])) Mock.auth)
       (Mock.signed_in "t1"))
  = Some "t1".
Proof.
  exact (getCurrentUser_success_keeps_token
           (Mock.respond 200 (JS.Object [("id", JS.Str "u1")])) Mock.auth
           (Mock.signed_in "t1")
           (mkResponse true 200 (JS.Return "")
              (JS.Return (JS.Object [("id", JS.Str "u1")])))
           (JS.Object [("id", JS.Str "u1")]) eq_refl eq_refl eq_refl).
Defined.

(** X3: no chat operation writes the token store or the console, whatever
    the network answers; all it adds to the world is its request. *)
Theorem chat_operations_only_add_requests this m fetch args w :
  stored_token (world_after (ChatService.invoke this m fetch args) w)
  = stored_token w /\
  console (world_after (ChatService.invoke this m fetch args) w) = console w /\
  requests (world_after (ChatService.invoke this m fetch args) w)
  = (requests w
     ++ issued w (world_after (ChatService.invoke this m fetch args) w))%list.
Proof.
  destruct (decide (m ∈ stubs)) as [Hm|Hm].
  - destruct (invoke_run this m fetch args w) as [[_ H]|[Hn _]]; [|done].
    unfold world_after. rewrite H. simpl.
    by rewrite issued_refl, app_nil_r.
  - destruct (chat_invoke_trace this m fetch args w Hm)
      as (endpoint & options & _ & H).
    unfold world_after. rewrite H. simpl. by rewrite issued_app.
Qed.

(** X4: one call, at most one request, whatever the answer: a chat
    operation makes exactly one unless it is a placeholder, an auth
    operation makes exactly one. Nothing is retried. *)
Theorem operations_issue_one_request :
  (forall this m fetch args w,
     length (issued w (world_after (ChatService.invoke this m fetch args) w))
     = if decide (m ∈ stubs) then 0 else 1) /\
  (forall this m fetch args w,
     length (issued w (world_after (AuthService.invoke this m fetch args) w)) = 1).
Proof.
  split.
  - intros this m fetch args w.
    destruct (invoke_world this m fetch args w)
      as [[Hm H]|(Hm & r & Hr & _)]; rewrite decide_bool_decide.
    + rewrite (bool_decide_eq_true_2 _ Hm).
      unfold world_after. rewrite H. simpl. by rewrite issued_refl.
    + rewrite (bool_decide_eq_false_2 _ Hm). by rewrite Hr.
  - intros this m fetch args w.
    destruct (auth_invoke_trace this m fetch args w)
      as (endpoint & options & _ & Hr & _).
    by rewrite (issued_of_requests _ _ _ Hr).
Qed.

(** ** How a chat operation ends *)

(** The outcome of a chat operation is the executor's, passed on as it is. *)
Lemma chat_result_is_classify this m fetch args w a :
  answer_of fetch w (world_after (ChatService.invoke this m fetch args) w) = Some a ->
  result_of (ChatService.invoke this m fetch args) w = classify a /\
  stored_token (world_after (ChatService.invoke this m fetch args) w)
  = stored_token w.
Proof.
  intros Ha. unfold answer_of in Ha.
  destruct (invoke_world this m fetch args w)
    as [[_ H]|(_ & r & Hr & _ & Hres & Htok)].
  - unfold world_after in Ha. rewrite H in Ha. simpl in Ha.
    by rewrite issued_refl in Ha.
  - rewrite Hr in Ha. injection Ha as <-. by split.
Qed.

(** X5: when the request of a chat operation is answered by an [ok]
    response whose body parses to [v], the operation returns [v] as it is,
    whatever the numeric status of the response. *)
Theorem chat_success_returns_payload this m fetch args w resp v :
  answer_of fetch w (world_after (ChatService.invoke this m fetch args) w)
  = Some (JS.Return resp) ->
  ok resp = true ->
  json resp = JS.Return v ->
  result_of (ChatService.invoke this m fetch args) w = JS.Return v.
Proof.
  intros Ha Hok Hjson.
  destruct (chat_result_is_classify this m fetch args w _ Ha) as [-> _].
  by apply classify_ok.
Qed.

(** X5 at work: [getMessages("c1")] returns the two messages the server
    sends. *)
Lemma chat_success_returns_payload_witness :
  result_of
    (ChatService.invoke Mock.chat ChatService.GetMessages
       (Mock.respond 200 [JS.Str "hello"; JS.Str "world"]) "c1")
    Mock.anonymous
  = JS.Return [JS.Str "hello"; JS.Str "world"].
Proof.
  exact (chat_success_returns_payload Mock.chat ChatService.GetMessages
           (Mock.respond 200 [JS.Str "hello"; JS.Str "world"]) "c1" Mock.anonymous
           (mkResponse true 200 (JS.Return "")
              (JS.Return [JS.Str "hello"; JS.Str "world"]))
           [JS.Str "hello"; JS.Str "world"] eq_refl eq_refl eq_refl).
Defined.

(** X6: when the request of a chat operation is answered by an [ok]
    response whose [json()] fails with [e], as on an empty body, the
    operation rejects with [e]: an operation declared to return nothing
    still parses the body. The stored token is what it was. *)
Theorem chat_unparseable_body_rejects this m fetch args w resp e :
  answer_of fetch w (world_after (ChatService.invoke this m fetch args) w)
  = Some (JS.Return resp) ->
  ok resp = true ->
  json resp = JS.Throw e ->
  result_of (ChatService.invoke this m fetch args) w = JS.Throw e /\
  stored_token (world_after (ChatService.invoke this m fetch args) w)
  = stored_token w.
Proof.
  intros Ha Hok Hjson.
  destruct (chat_result_is_classify this m fetch args w _ Ha) as [-> Ht].
  split; [|done]. unfold classify. by rewrite Hok, Hjson.
Qed.

(** X6 at work: [claimConversation("c1")] answered 204 with no body. *)
Lemma chat_unparseable_body_rejects_witness :
  result_of
    (ChatService.invoke Mock.chat ChatService.ClaimConversation no_content "c1")
    (Mock.signed_in "t1")
  = JS.Throw (JS.mkError "SyntaxError" "Unexpected end of JSON input") /\
  stored_token
    (world_after
       (ChatService.invoke Mock.chat ChatService.ClaimConversation no_content "c1")
       (Mock.signed_in "t1"))
  = Some "t1".
Proof.
  exact (chat_unparseable_body_rejects Mock.chat ChatService.ClaimConversation
           no_content "c1" (Mock.signed_in "t1")
           (mkResponse true 204 (JS.Return "")
              (JS.Throw (JS.mkError "SyntaxError" "Unexpected end of JSON input")))
           (JS.mkError "SyntaxError" "Unexpected end of JSON input")
           eq_refl eq_refl eq_refl).
Defined.

(** X7: when [fetch] itself rejects with [e], a chat operation rejects
    with that same [e], not with a "Request failed" error, and the stored
    token is what it was. *)
Theorem chat_transport_failure_propagates this m fetch args w e :
  answer_of fetch w (world_after (ChatService.invoke this m fetch args) w)
  = Some (JS.Throw e) ->
  result_of (ChatService.invoke this m fetch args) w = JS.Throw e /\
  stored_token (world_after (ChatService.invoke this m fetch args) w)
  = stored_token w.
Proof.
  intros Ha. by destruct (chat_result_is_classify this m fetch args w _ Ha) as [-> Ht].
Qed.

Lemma chat_transport_failure_propagates_witness :
  result_of
    (ChatService.invoke Mock.chat ChatService.GetExpertQueue Mock.unreachable tt)
    (Mock.signed_in "t1")
  = JS.Throw (JS.mkError "TypeError" "Failed to fetch") /\
  stored_token
    (world_after
       (ChatService.invoke Mock.chat ChatService.GetExpertQueue Mock.unreachable tt)
       (Mock.signed_in "t1"))
  = Some "t1".
Proof.
  exact (chat_transport_failure_propagates Mock.chat ChatService.GetExpertQueue
           Mock.unreachable tt (Mock.signed_in "t1")
           (JS.mkError "TypeError" "Failed to fetch") eq_refl).
Defined.

(** X8: when the response is not [ok] and reading its text fails with
    [e], a chat operation rejects with [e]: the status of the response is
    then in no error the caller sees. *)
Theorem chat_unreadable_error_body this m fetch args w resp e :
  answer_of fetch w (world_after (ChatService.invoke this m fetch args) w)
  = Some (JS.Return resp) ->
  ok resp = false ->
  text resp = JS.Throw e ->
  result_of (ChatService.invoke this m fetch args) w = JS.Throw e.
Proof.
  intros Ha Hok Ht.
  destruct (chat_result_is_classify this m fetch args w _ Ha) as [-> _].
  unfold classify. by rewrite Hok, Ht.
Qed.

Lemma chat_unreadable_error_body_witness :
  result_of
    (ChatService.invoke Mock.chat ChatService.GetExpertProfile broken_body tt)
    Mock.anonymous
  = JS.Throw (JS.mkError "TypeError" "Failed to fetch").
Proof.
  exact (chat_unreadable_error_body Mock.chat ChatService.GetExpertProfile
           broken_body tt Mock.anonymous
           (mkResponse false 502
              (JS.Throw (JS.mkError "TypeError" "Failed to fetch"))
              (JS.Throw (JS.mkError "TypeError" "Failed to fetch")))
           (JS.mkError "TypeError" "Failed to fetch") eq_refl eq_refl eq_refl).
Defined.

(** ** What every request looks like *)

Lemma default_headers_content_type options :
  headers options = None ->
  default_headers options !! "Content-Type" = Some "application/json".
Proof.
  intros H. unfold default_headers. rewrite H. simpl.
  rewrite lookup_union, lookup_empty. by rewrite lookup_singleton_eq.
Qed.

Lemma chat_headers_content_type tok options :
  headers options = None ->
  chat_headers tok options !! "Content-Type" = Some "application/json".
Proof.
  intros H. unfold chat_headers.
  destruct tok as [c|]; [destruct (JS.truthy c)|];
    rewrite ?lookup_insert_ne by done; by apply default_headers_content_type.
Qed.

(** X9: every request of every operation, of either service, is sent with
    [credentials: 'include'] and with the header [Content-Type:
    application/json], whether or not a token is stored and whether or not
    the request has a body. *)
Theorem requests_carry_cookies_and_content_type :
  (forall this m fetch args w,
     Forall (fun r => credentials (init r) = Some "include" /\
                      header r "Content-Type" = Some "application/json")
       (issued w (world_after (ChatService.invoke this m fetch args) w))) /\
  (forall this m fetch args w,
     Forall (fun r => credentials (init r) = Some "include" /\
                      header r "Content-Type" = Some "application/json")
       (issued w (world_after (AuthService.invoke this m fetch args) w))).
Proof.
  split; intros this m fetch args w.
  - destruct (decide (m ∈ stubs)) as [Hm|Hm].
    + destruct (invoke_run this m fetch args w) as [[_ H]|[Hn _]]; [|done].
      unfold world_after. rewrite H. simpl. rewrite issued_refl. constructor.
    + destruct (chat_invoke_trace this m fetch args w Hm)
        as (endpoint & options & Hh & H).
      unfold world_after. rewrite H. simpl. rewrite issued_app.
      repeat constructor. unfold header. simpl.
      by apply chat_headers_content_type.
  - destruct (auth_invoke_trace this m fetch args w)
      as (endpoint & options & Hh & Hr & _).
    rewrite (issued_of_requests _ _ _ Hr).
    repeat constructor. unfold header. simpl.
    by apply default_headers_content_type.
Qed.

(** X10: every request of every operation goes to a URL that begins with
    the base URL of the service instance. *)
Theorem requests_go_to_base_url :
  (forall this m fetch args w,
     Forall (fun r => String.prefix (ApiChatService.baseUrl this) (url r) = true)
       (issued w (world_after (ChatService.invoke this m fetch args) w))) /\
  (forall this m fetch args w,
     Forall (fun r => String.prefix (ApiAuthService.baseUrl this) (url r) = true)
       (issued w (world_after (AuthService.invoke this m fetch args) w))).
Proof.
  split; intros this m fetch args w.
  - destruct (decide (m ∈ stubs)) as [Hm|Hm].
    + destruct (invoke_run this m fetch args w) as [[_ H]|[Hn _]]; [|done].
      unfold world_after. rewrite H. simpl. rewrite issued_refl. constructor.
    + destruct (chat_invoke_trace this m fetch args w Hm)
        as (endpoint & options & Hh & H).
      unfold world_after. rewrite H. simpl. rewrite issued_app.
      repeat constructor. simpl. apply prefix_app.
  - destruct (auth_invoke_trace this m fetch args w)
      as (endpoint & options & Hh & Hr & _).
    rewrite (issued_of_requests _ _ _ Hr).
    repeat constructor. simpl. apply prefix_app.
Qed.

(** X11: an identifier goes into the path as it is, with no encoding:
    [getConversation(id + "/messages")] sends the very request that
    [getMessages(id)] sends. *)
Theorem identifier_is_not_encoded fetch_one fetch_many this id w :
  issued w
    (world_after (ApiChatService.getConversation fetch_one this (id ++ "/messages")) w)
  = issued w (world_after (ApiChatService.getMessages fetch_many this id) w).
Proof.
  unfold world_after, ApiChatService.getConversation, ApiChatService.getMessages.
  rewrite !bind_ret, !chat_makeRequest_run. cbv zeta. simpl.
  by rewrite !issued_app.
Qed.

(** ** The auth operations and the world *)

(** X12: no auth operation reads the token store. Run with another token
    stored, or none, it gives the same result, sends the same request and
    writes the same lines to the console. *)
Theorem auth_operations_ignore_stored_token this m fetch args w t :
  result_of (AuthService.invoke this m fetch args) (with_token t w)
  = result_of (AuthService.invoke this m fetch args) w /\
  issued (with_token t w)
    (world_after (AuthService.invoke this m fetch args) (with_token t w))
  = issued w (world_after (AuthService.invoke this m fetch args) w) /\
  console_added (with_token t w)
    (world_after (AuthService.invoke this m fetch args) (with_token t w))
  = console_added w (world_after (AuthService.invoke this m fetch args) w).
Proof.
  destruct m; simpl;
    unfold result_of, world_after, ApiAuthService.login, ApiAuthService.register,
      ApiAuthService.logout, ApiAuthService.refreshToken,
      ApiAuthService.getCurrentUser;
    run; rewrite !auth_makeRequest_run; cbv zeta; simpl;
    destruct (classify _); simpl;
    (split; [reflexivity|]);
    split;
    first [ by erewrite !issued_of_requests by reflexivity
          | by erewrite !console_added_of_console by reflexivity ].
Qed.

(** X13: after a [login] or [register] that succeeded with an envelope,
    the next chat operation sends the envelope's token as its bearer,
    whatever was stored before; but an envelope with the empty string for
    a token gives requests with no [Authorization] header. *)
Theorem sign_in_then_chat_sends_new_token
    fetch this s w resp envelope chat m chat_fetch args :
  answer_of fetch w (world_after (sign_in fetch this s) w) = Some (JS.Return resp) ->
  ok resp = true ->
  json resp = JS.Return envelope ->
  authorization_sent (ChatService.invoke chat m chat_fetch args)
    (world_after (sign_in fetch this s) w)
  = if decide (m ∈ stubs) then []
    else [if JS.truthy (ApiAuthService.token envelope)
          then Some ("Bearer " ++ ApiAuthService.token envelope)
          else None].
Proof.
  intros Ha Hok Hjson.
  destruct (sign_in_writes_token this fetch s w) as (a & Ha' & H).
  rewrite Ha in Ha'. injection Ha' as <-.
  rewrite (classify_ok _ _ Hok Hjson) in H. destruct H as [_ Ht].
  by rewrite chat_request_headers, Ht, chat_headers_lookup.
Qed.

(** X13 at work: an anonymous user logs in and lists the conversations. *)
Lemma sign_in_then_chat_sends_new_token_witness :
  authorization_sent
    (ChatService.invoke Mock.chat ChatService.GetConversations
       (Mock.respond 200 []) tt)
    (world_after
       (ApiAuthService.login
          (Mock.respond 200 (ApiAuthService.mkAuthResponse JS.Null "t9"))
          Mock.auth "alice" "pw")
       Mock.anonymous)
  = [Some "Bearer t9"].
Proof.
  exact (sign_in_then_chat_sends_new_token
           (Mock.respond 200 (ApiAuthService.mkAuthResponse JS.Null "t9"))
           Mock.auth (ByLogin "alice" "pw") Mock.anonymous
           (mkResponse true 200 (JS.Return "")
              (JS.Return (ApiAuthService.mkAuthResponse JS.Null "t9")))
           (ApiAuthService.mkAuthResponse JS.Null "t9")
           Mock.chat ChatService.GetConversations (Mock.respond 200 []) tt
           eq_refl eq_refl eq_refl).
Defined.

(** X14: after a [getCurrentUser()] whose request failed, the next chat
    operation sends its request with no [Authorization] header. *)
Theorem failed_user_check_then_chat_sends_no_bearer
    fetch this w a e chat m chat_fetch args :
  answer_of fetch w (world_after (ApiAuthService.getCurrentUser fetch this) w)
  = Some a ->
  classify a = JS.Throw e ->
  authorization_sent (ChatService.invoke chat m chat_fetch args)
    (world_after (ApiAuthService.getCurrentUser fetch this) w)
  = if decide (m ∈ stubs) then [] else [None].
Proof.
  intros Ha He.
  destruct (getCurrentUser_run this fetch w) as (a' & Ha' & H).
  rewrite Ha in Ha'. injection Ha' as <-.
  rewrite He in H. destruct H as [_ Ht].
  by rewrite chat_request_headers, Ht, chat_headers_lookup.
Qed.

Lemma failed_user_check_then_chat_sends_no_bearer_witness :
  authorization_sent
    (ChatService.invoke Mock.chat ChatService.GetConversations
       (Mock.respond 200 []) tt)
    (world_after
       (ApiAuthService.getCurrentUser (Mock.refuse 401 "Unauthorized") Mock.auth)
       (Mock.signed_in "t1"))
  = [None].
Proof.
  exact (failed_user_check_then_chat_sends_no_bearer
           (Mock.refuse 401 "Unauthorized") Mock.auth (Mock.signed_in "t1")
           (JS.Return (mkResponse false 401 (JS.Return "Unauthorized")
                         (JS.Throw (JS.mkError "SyntaxError" "Unexpected token"))))
           (JS.new_Error "Request failed with status 401: Unauthorized")
           Mock.chat ChatService.GetConversations (Mock.respond 200 []) tt
           eq_refl eq_refl).
Defined.



(** X16: every auth operation writes two lines to the console before its
    request goes out, the second with the very options handed to [fetch],
    body included; for [login] that body is the JSON text holding the
    password. *)
Theorem auth_requests_are_logged :
  (forall this m fetch args w,
     exists r,
       issued w (world_after (AuthService.invoke this m fetch args) w) = [r] /\
       console_added w (world_after (AuthService.invoke this m fetch args) w)
       = [[LogStr "fetch options"]; [LogStr "fetchOptions:"; LogInit (init r)]]) /\
  (forall this fetch username password w,
     bodies_sent (ApiAuthService.login fetch this username password) w
     = [Some (JSON.stringify [("username", JS.Str username);
                              ("password", JS.Str password)])]).
Proof.
  split.
  - intros this m fetch args w.
    destruct (auth_invoke_trace this m fetch args w)
      as (endpoint & options & _ & Hr & Hc).
    eexists. split.
    + by apply issued_of_requests.
    + by apply console_added_of_console.
  - intros this fetch username password w.
    unfold bodies_sent, world_after, ApiAuthService.login.
    run. rewrite auth_makeRequest_run. cbv zeta.
    destruct (classify _); simpl; by rewrite issued_app.
Qed.

Lemma register_agree fetch this userData1 userData2 :
  agree_on register_fields userData1 userData2 ->
  ApiAuthService.register fetch this userData1
  = ApiAuthService.register fetch this userData2.
Proof.
  unfold agree_on, register_fields. intros H.
  repeat (apply Forall_cons in H as [? H]).
  unfold ApiAuthService.register. congruence.
Qed.

(** X17: [register] sends the [username] and [password] of the object it
    is given and nothing else of it: two objects that agree on these two
    fields, whatever other fields either has, give the same run, and the
    one body sent is [JSON.stringify] of the object with these two fields. *)
Theorem register_sends_username_and_password fetch this w userData1 userData2 :
  agree_on register_fields userData1 userData2 ->
  ApiAuthService.register fetch this userData1 w
  = ApiAuthService.register fetch this userData2 w /\
  bodies_sent (ApiAuthService.register fetch this userData1) w
  = [Some (JSON.stringify
             (map (fun k => (k, JS.get userData1 k)) register_fields))].
Proof.
  intros E%(register_agree fetch this).
  split; [by rewrite E|].
  unfold bodies_sent, world_after, ApiAuthService.register.
  run. rewrite auth_makeRequest_run. cbv zeta.
  destruct (classify _); simpl; by rewrite issued_app.
Qed.

(** X17 at work: an [email] and a [role] in the object do not reach the
    server. *)
Lemma register_sends_username_and_password_witness :
  ApiAuthService.register (Mock.refuse 422 "taken") Mock.auth
    [("username", JS.Str "bob"); ("password", JS.Str "pw")] Mock.anonymous
  = ApiAuthService.register (Mock.refuse 422 "taken") Mock.auth
      [("email", JS.Str "b@x.org"); ("username", JS.Str "bob");
       ("role", JS.Str "admin"); ("password", JS.Str "pw")] Mock.anonymous /\
  bodies_sent
    (ApiAuthService.register (Mock.refuse 422 "taken") Mock.auth
       [("username", JS.Str "bob"); ("password", JS.Str "pw")])
    Mock.anonymous
  = [Some (JSON.stringify [("username", JS.Str "bob"); ("password", JS.Str "pw")])].
Proof.
  exact (register_sends_username_and_password (Mock.refuse 422 "taken") Mock.auth
           Mock.anonymous
           [("username", JS.Str "bob"); ("password", JS.Str "pw")]
           [("email", JS.Str "b@x.org"); ("username", JS.Str "bob");
            ("role", JS.Str "admin"); ("password", JS.Str "pw")]
           ltac:(repeat constructor)).
Defined.

(** ** Edges of the request building *)

(** X18: nothing checks a request object before it is sent. When it has
    none of the operation's allow-listed fields, the operation still makes
    its one request, and the body is the empty object. *)
Theorem missing_fields_give_empty_body op fetch this w request :
  Forall (fun k => JS.get request k = JS.Undefined) (allow_list op) ->
  bodies_sent (send op fetch this request) w = [Some "{}"].
Proof.
  intros H.
  unfold bodies_sent, world_after.
  destruct op; simpl in H; repeat (apply Forall_cons in H as [? H]);
    unfold send, ApiChatService.createConversation, ApiChatService.sendMessage,
      ApiChatService.updateExpertProfile;
    rewrite bind_ret, chat_makeRequest_run; cbv zeta; simpl;
    rewrite issued_app; simpl;
    repeat match goal with E : JS.get _ _ = _ |- _ => rewrite E; clear E end;
    reflexivity.
Qed.

(** X18 at work: [sendMessage] on an object that has only a [text]. *)
Lemma missing_fields_give_empty_body_witness :
  bodies_sent
    (ApiChatService.sendMessage (Mock.refuse 400 "bad request") Mock.chat
       [("text", JS.Str "hi")])
    Mock.anonymous
  = [Some "{}"].
Proof.
  exact (missing_fields_give_empty_body SendMessage (Mock.refuse 400 "bad request")
           Mock.chat Mock.anonymous [("text", JS.Str "hi")]
           ltac:(repeat constructor)).
Defined.

(** X19: an auth service made from a configuration with no base URL, or
    with the empty string for one, sends every request under
    [http://localhost:3000/auth/]. *)
Theorem auth_default_base_url config m fetch args w :
  ApiAuthService.config_baseUrl config = None \/
  ApiAuthService.config_baseUrl config = Some "" ->
  Forall (fun r => String.prefix "http://localhost:3000/auth/" (url r) = true)
    (issued w
       (world_after
          (AuthService.invoke (ApiAuthService.constructor config) m fetch args) w)).
Proof.
  intros Hc.
  assert (ApiAuthService.constructor config
          = ApiAuthService.mkService "http://localhost:3000") as ->.
  { unfold ApiAuthService.constructor. by destruct Hc as [-> | ->]. }
  destruct m; simpl;
    unfold world_after, ApiAuthService.login, ApiAuthService.register,
      ApiAuthService.logout, ApiAuthService.refreshToken,
      ApiAuthService.getCurrentUser;
    run; rewrite auth_makeRequest_run; cbv zeta;
    destruct (classify _); simpl; rewrite issued_app; by repeat constructor.
Qed.

Lemma auth_default_base_url_witness :
  Forall (fun r => String.prefix "http://localhost:3000/auth/" (url r) = true)
    (issued Mock.anonymous
       (world_after
          (AuthService.invoke
             (ApiAuthService.constructor (ApiAuthService.mkConfig (Some "") 5000 3))
             AuthService.Login
             (Mock.respond 200 (ApiAuthService.mkAuthResponse JS.Null "t1"))
             ("alice", "pw"))
          Mock.anonymous)).
Proof.
  exact (auth_default_base_url (ApiAuthService.mkConfig (Some "") 5000 3)
           AuthService.Login
           (Mock.respond 200 (ApiAuthService.mkAuthResponse JS.Null "t1"))
           ("alice", "pw") Mock.anonymous (or_intror eq_refl)).
Defined.

(** X21: no request with the verb [GET] has a body, and every request
    with a body has the verb [POST] or [PUT]; this for every operation of
    either service. *)
Theorem body_only_with_post_or_put :
  (forall this m fetch args w,
     Forall (fun r =>
               (method (init r) = Some "GET" -> body (init r) = None) /\
               (body (init r) ≠ None ->
                method (init r) = Some "POST" \/ method (init r) = Some "PUT"))
       (issued w (world_after (ChatService.invoke this m fetch args) w))) /\
  (forall this m fetch args w,
     Forall (fun r =>
               (method (init r) = Some "GET" -> body (init r) = None) /\
               (body (init r) ≠ None ->
                method (init r) = Some "POST" \/ method (init r) = Some "PUT"))
       (issued w (world_after (AuthService.invoke this m fetch args) w))).
Proof.
  split; intros this m fetch args w.
  - destruct m; simpl;
      unfold world_after, ApiChatService.getConversations,
        ApiChatService.getConversation, ApiChatService.createConversation,
        ApiChatService.updateConversation, ApiChatService.deleteConversation,
        ApiChatService.getMessages, ApiChatService.sendMessage,
        ApiChatService.markMessageAsRead, ApiChatService.getExpertQueue,
        ApiChatService.claimConversation, ApiChatService.unclaimConversation,
        ApiChatService.getExpertProfile, ApiChatService.updateExpertProfile,
        ApiChatService.getExpertAssignmentHistory;
      first [ rewrite bind_ret, chat_makeRequest_run; cbv zeta; simpl;
              rewrite issued_app
            | unfold throw; simpl; rewrite issued_refl ];
      repeat constructor; simpl; first [done|tauto|discriminate].
  - destruct m; simpl;
      unfold world_after, ApiAuthService.login, ApiAuthService.register,
        ApiAuthService.logout, ApiAuthService.refreshToken,
        ApiAuthService.getCurrentUser;
      run; rewrite auth_makeRequest_run; cbv zeta;
      destruct (classify _); simpl; rewrite issued_app;
      repeat constructor; simpl; first [done|tauto|discriminate].
Qed.

(** ** Reading the failure back *)

Lemma pretty_N_go_no_colon x s : no_colon s -> no_colon (pretty_N_go x s).
Proof.
  revert s. induction (N.lt_wf_0 x) as [x _ IH]; intros s Hs.
  assert (x = 0 \/ 0 < x)%N as [->|Hx] by lia.
  - by rewrite pretty_N_go_0.
  - rewrite pretty_N_go_step by done. apply IH; [by apply N.div_lt|].
    split; [|done]. unfold pretty_N_char. by repeat case_match.
Qed.

Lemma pretty_N_no_colon (x : N) : no_colon (pretty x).
Proof.
  unfold pretty, pretty_N. case_decide; [by split|].
  by apply pretty_N_go_no_colon.
Qed.

Lemma split_at_colon d1 d2 r1 r2 :
  no_colon d1 -> no_colon d2 ->
  d1 ++ String ":" r1 = d2 ++ String ":" r2 -> d1 = d2 /\ r1 = r2.
Proof.
  revert d2. induction d1 as [|c d1 IH]; intros [|c' d2] H1 H2 E; simpl in *.
  - by injection E as ->.
  - injection E as <- _. by destruct H2.
  - injection E as -> _. by destruct H1.
  - injection E as -> E. destruct H1 as [_ H1], H2 as [_ H2].
    destruct (IH d2 H1 H2 E) as [-> ->]. done.
Qed.

Lemma request_failed_inj (s1 s2 : N) t1 t2 :
  JS.new_Error ("Request failed with status " ++ pretty s1 ++ ": " ++ t1)
  = JS.new_Error ("Request failed with status " ++ pretty s2 ++ ": " ++ t2) ->
  s1 = s2 /\ t1 = t2.
Proof.
  intros E. injection E as E.
  apply split_at_colon in E as [Hs Ht]; try apply pretty_N_no_colon.
  split; [by apply (inj pretty)|by injection Ht].
Qed.

(** X22: the error of a refused request tells the status and the body
    text apart: when two calls of a chat operation are each answered by a
    response that is not [ok] and reject with the same error, the two
    responses had the same status and the same text. *)
Theorem failure_tells_status_and_text
    this m fetch1 fetch2 args1 args2 w1 w2 resp1 resp2 t1 t2 :
  answer_of fetch1 w1 (world_after (ChatService.invoke this m fetch1 args1) w1)
  = Some (JS.Return resp1) ->
  ok resp1 = false -> text resp1 = JS.Return t1 ->
  answer_of fetch2 w2 (world_after (ChatService.invoke this m fetch2 args2) w2)
  = Some (JS.Return resp2) ->
  ok resp2 = false -> text resp2 = JS.Return t2 ->
  result_of (ChatService.invoke this m fetch1 args1) w1
  = result_of (ChatService.invoke this m fetch2 args2) w2 ->
  status resp1 = status resp2 /\ t1 = t2.
Proof.
  intros Ha1 Hok1 Ht1 Ha2 Hok2 Ht2.
  destruct (chat_result_is_classify this m fetch1 args1 w1 _ Ha1) as [-> _].
  destruct (chat_result_is_classify this m fetch2 args2 w2 _ Ha2) as [-> _].
  rewrite (classify_not_ok _ _ Hok1 Ht1), (classify_not_ok _ _ Hok2 Ht2).
  intros E. apply request_failed_inj. congruence.
Qed.

(** X22 at work: the same refusal, seen by a signed-in and by an anonymous
    caller. *)
Lemma failure_tells_status_and_text_witness :
  (404 = 404)%N /\ "no such conversation" = "no such conversation".
Proof.
  exact (failure_tells_status_and_text Mock.chat ChatService.GetConversation
           (Mock.refuse 404 "no such conversation")
           (Mock.refuse 404 "no such conversation")
           "c1" "c2" (Mock.signed_in "t1") Mock.anonymous
           (mkResponse false 404 (JS.Return "no such conversation")
              (JS.Throw (JS.mkError "SyntaxError" "Unexpected token")))
           (mkResponse false 404 (JS.Return "no such conversation")
              (JS.Throw (JS.mkError "SyntaxError" "Unexpected token")))
           "no such conversation" "no such conversation"
           eq_refl eq_refl eq_refl eq_refl eq_refl eq_refl eq_refl).
Defined.
